(** * The CODITECT installer: a shallow embedding and its specification

    The development follows the three modules of the installer package:
    [install.py] (platform resolver, installer core, CLI front-end),
    [launch.py] (the launcher) and [install_gui.py] (the GUI front-end).

    Python code with effects becomes a computation in a state-and-exception
    monad over a [World]: the filesystem, the operator's pending input, the
    mutable colour table of class [Colors], and the chronological trace of
    everything the process did to the outside (lines printed, prompts,
    directory removals, external commands, queue messages). *)

From Stdlib Require Import String Ascii List ZArith Lia Bool DecimalString.
Import ListNotations.
Open Scope string_scope.

(** ** Python strings

    A [str] is modelled by a Rocq [string] whose characters are the code
    points below 256.  The three glyphs the installer prints lie outside
    that range and are written by their UTF-8 bytes. *)

Module PyStr.

Definition nl : string := String (ascii_of_nat 10) EmptyString.
Definition esc : string := String (ascii_of_nat 27) EmptyString.

(** [s * n] *)
Fixpoint mul (s : string) (n : nat) : string :=
  match n with
  | O => ""
  | S n' => s ++ mul s n'
  end.

(** [str.isspace] on one character: TAB..CR, FS..US, SPACE, NEL, NBSP. *)
Definition isspace (c : ascii) : bool :=
  let n := nat_of_ascii c in
  (((9 <=? n) && (n <=? 13)) || ((28 <=? n) && (n <=? 32))
   || (n =? 133) || (n =? 160))%nat.

Fixpoint lstrip (s : string) : string :=
  match s with
  | EmptyString => EmptyString
  | String c s' => if isspace c then lstrip s' else s
  end.

Fixpoint rstrip (s : string) : string :=
  match s with
  | EmptyString => EmptyString
  | String c s' =>
      match rstrip s' with
      | EmptyString => if isspace c then EmptyString else String c EmptyString
      | r => String c r
      end
  end.

(** [s.strip()] *)
Definition strip (s : string) : string := rstrip (lstrip s).

(** [str.lower] on one character: A-Z and the Latin-1 capitals. *)
Definition lower_char (c : ascii) : ascii :=
  let n := nat_of_ascii c in
  if (((65 <=? n) && (n <=? 90))
      || ((192 <=? n) && (n <=? 222) && negb (n =? 215)))%nat
  then ascii_of_nat (n + 32) else c.

(** [s.lower()] *)
Fixpoint lower (s : string) : string :=
  match s with
  | EmptyString => EmptyString
  | String c s' => String (lower_char c) (lower s')
  end.

(** [str(n)] for an [int] *)
Definition of_int (z : Z) : string := NilZero.string_of_int (Z.to_int z).

(** Truthiness of a [str] *)
Definition truthy (s : string) : bool :=
  match s with EmptyString => false | _ => true end.

End PyStr.

(** ** Paths ([pathlib.Path])

    An absolute path is the list of its components below the anchor. *)

Definition Path := list string.

Definition path_div (p : Path) (c : string) : Path := (p ++ [c])%list.
Definition path_parent (p : Path) : Path := removelast p.

Definition path_eqb (p q : Path) : bool :=
  if list_eq_dec string_dec p q then true else false.

Fixpoint path_under (p q : Path) : bool :=
  match p, q with
  | [], _ => true
  | c :: p', d :: q' => String.eqb c d && path_under p' q'
  | _ :: _, [] => false
  end.

Notation "p // c" := (path_div p c) (at level 40, left associativity).

(** ** The filesystem: the entries that exist *)

Definition FS := list Path.

Definition path_exists (fs : FS) (p : Path) : bool := existsb (path_eqb p) fs.

(** [shutil.rmtree(p)]: [p] and everything below it is gone. *)
Definition fs_rmtree (fs : FS) (p : Path) : FS :=
  filter (fun q => negb (path_under p q)) fs.

(** ** Exceptions *)

Inductive Exn : Type :=
| CalledProcessError (cmd : list string) (returncode : Z)
| OSError (cmd : list string)
| EOFError
| SystemExit (code : Z).

(** [except Exception] catches everything but [SystemExit]. *)
Definition is_Exception (e : Exn) : bool :=
  match e with SystemExit _ => false | _ => true end.

Definition is_CalledProcessError (e : Exn) : bool :=
  match e with CalledProcessError _ _ => true | _ => false end.

(** ** Progress messages of the GUI queue *)

Inductive Msg : Type :=
| MLog (text : string)
| MProgress (text : string)
| MSuccess (text : string)
| MError (text : string).

(** ** The world *)

(** What an external command did: it ran and exited, or could not start. *)
Inductive ProcOutcome : Type :=
| Exited (returncode : Z) (stdout : string)
| NotStarted.

Inductive Event : Type :=
| Print (line : string)
| Input (prompt : string)
| Rmtree (p : Path)
| Run (args : list string)
| Put (m : Msg).

(** class [Colors] *)
Record Colors : Type := mkColors {
  RED : string; GREEN : string; YELLOW : string; BLUE : string;
  CYAN : string; BOLD : string; NC : string
}.

Definition Colors_class : Colors :=
  {| RED := PyStr.esc ++ "[0;31m";
     GREEN := PyStr.esc ++ "[0;32m";
     YELLOW := PyStr.esc ++ "[1;33m";
     BLUE := PyStr.esc ++ "[0;34m";
     CYAN := PyStr.esc ++ "[0;36m";
     BOLD := PyStr.esc ++ "[1m";
     NC := PyStr.esc ++ "[0m" |}.

Definition Colors_blank : Colors := mkColors "" "" "" "" "" "" "".

Record World : Type := mkWorld {
  fs : FS;
  stdin : list string;
  colors : Colors;
  trace : list Event
}.

(** The part of the environment a run cannot change. *)
Record Host : Type := mkHost {
  (** [platform.system()] and [platform.release()] *)
  system : string;
  release : string;
  (** [sys.version_info]: major, minor, micro *)
  major : Z; minor : Z; micro : Z;
  (** [os.environ.get('ANSICON')] *)
  ANSICON : option string;
  (** [Path(__file__).absolute()] of [install.py] *)
  install_py : Path;
  (** how [str(path)] is written on this host *)
  anchor : string;
  sep : string;
  (** whether [import tkinter] succeeds *)
  tkinter : bool;
  (** what running an external command does *)
  exec : list string -> FS -> ProcOutcome * FS;
  (** [str(e)] of an exception *)
  exc_text : Exn -> string
}.

Definition path_str (h : Host) (p : Path) : string :=
  anchor h ++ String.concat (sep h) p.

(** ** The monad *)

Inductive Result (A : Type) : Type :=
| Ok (a : A)
| Raise (e : Exn).
Arguments Ok {A} a.
Arguments Raise {A} e.

Definition M (A : Type) : Type := World -> Result A * World.

Definition ret {A} (a : A) : M A := fun w => (Ok a, w).

Definition bind {A B} (c : M A) (k : A -> M B) : M B :=
  fun w => match c w with
           | (Ok a, w') => k a w'
           | (Raise e, w') => (Raise e, w')
           end.

Definition raise {A} (e : Exn) : M A := fun w => (Raise e, w).

(** [try: c  except <catches> as e: handler e] *)
Definition try_except {A} (c : M A) (catches : Exn -> bool) (handler : Exn -> M A) : M A :=
  fun w => match c w with
           | (Raise e, w') => if catches e then handler e w' else (Raise e, w')
           | r => r
           end.

Declare Scope py_scope.
Delimit Scope py_scope with py.
Notation "x <- c ;; k" := (bind c (fun x => k))
  (at level 61, c at next level, right associativity) : py_scope.
Notation "c ;; k" := (bind c (fun _ => k))
  (at level 61, right associativity) : py_scope.
Open Scope py_scope.

Definition emit (e : Event) : M unit :=
  fun w => (Ok tt, mkWorld (fs w) (stdin w) (colors w) (trace w ++ [e])%list).

Definition print (s : string) : M unit := emit (Print s).

(** [input(prompt)] *)
Definition input (prompt : string) : M string :=
  fun w => match stdin w with
           | [] => (Raise EOFError,
                    mkWorld (fs w) [] (colors w) (trace w ++ [Input prompt])%list)
           | l :: rest => (Ok l,
                    mkWorld (fs w) rest (colors w) (trace w ++ [Input prompt])%list)
           end.

Definition get_colors : M Colors := fun w => (Ok (colors w), w).
Definition set_colors (c : Colors) : M unit :=
  fun w => (Ok tt, mkWorld (fs w) (stdin w) c (trace w)).

Definition exists_ (p : Path) : M bool := fun w => (Ok (path_exists (fs w) p), w).

Definition rmtree (p : Path) : M unit :=
  fun w => (Ok tt, mkWorld (fs_rmtree (fs w) p) (stdin w) (colors w)
                           (trace w ++ [Rmtree p])%list).

(** [subprocess.run(args, check=True)], returning the captured output *)
Definition subprocess_run (h : Host) (args : list string) : M string :=
  fun w => let '(o, fs') := exec h args (fs w) in
           let w' := mkWorld fs' (stdin w) (colors w) (trace w ++ [Run args])%list in
           match o with
           | Exited rc out =>
               if (rc =? 0)%Z then (Ok out, w')
               else (Raise (CalledProcessError args rc), w')
           | NotStarted => (Raise (OSError args), w')
           end.

(** Tuple comparison [a < b], as Python orders sequences. *)
Fixpoint tuple_lt (a b : list Z) : bool :=
  match a, b with
  | _, [] => false
  | [], _ :: _ => true
  | x :: a', y :: b' => if (x =? y)%Z then tuple_lt a' b' else (x <? y)%Z
  end.

Definition version_info (h : Host) : list Z := [major h; minor h; micro h].

Definition version_text (h : Host) : string :=
  PyStr.of_int (major h) ++ "." ++ PyStr.of_int (minor h) ++ "."
  ++ PyStr.of_int (micro h).

(** How the interpreter ends: [sys.exit(code)], or an uncaught exception,
    which ends the process with status 1. *)
Definition exit_status (r : Result Z) : Z :=
  match r with
  | Ok code => code
  | Raise (SystemExit code) => code
  | Raise _ => 1%Z
  end.

(** ** install.py *)

Module Install.

Record Installer : Type := mkInstaller {
  script_dir : Path;
  project_root : Path;
  venv_path : Path;
  os_type : string
}.

(** Parsed command line of [install.py] *)
Record Namespace : Type := mkNamespace {
  venv_only : bool;
  deps_only : bool
}.

Section WithHost.

Variable h : Host.

(** [Colors.disable_on_windows] *)
Definition disable_on_windows : M unit :=
  if String.eqb (system h) "Windows"
     && negb (match ANSICON h with Some v => PyStr.truthy v | None => false end)
  then set_colors Colors_blank
  else ret tt.

(** The attributes [__init__] assigns. *)
Definition attributes : Installer :=
  let script_dir := path_parent (install_py h) in
  let project_root := path_parent script_dir in
  mkInstaller script_dir project_root (project_root // "venv") (system h).

(** [CrossPlatformInstaller.__init__] *)
Definition CrossPlatformInstaller : M Installer :=
  let self := attributes in
  (if String.eqb (os_type self) "Windows" then disable_on_windows else ret tt);;
  ret self.

(** *** Platform resolver *)

Definition get_python_executable (self : Installer) : string :=
  if String.eqb (os_type self) "Windows" then "python" else "python3".

Definition get_venv_activation_command (self : Installer) : string :=
  if String.eqb (os_type self) "Windows"
  then path_str h (venv_path self // "Scripts" // "activate.bat")
  else "source " ++ path_str h (venv_path self // "bin" // "activate").

Definition get_venv_python (self : Installer) : Path :=
  if String.eqb (os_type self) "Windows"
  then venv_path self // "Scripts" // "python.exe"
  else venv_path self // "bin" // "python".

Definition get_venv_pip (self : Installer) : Path :=
  if String.eqb (os_type self) "Windows"
  then venv_path self // "Scripts" // "pip.exe"
  else venv_path self // "bin" // "pip".

(** *** Output helpers *)

Definition print_status (message : string) : M unit :=
  c <- get_colors;; print (GREEN c ++ "✓" ++ NC c ++ " " ++ message).

Definition print_warning (message : string) : M unit :=
  c <- get_colors;; print (YELLOW c ++ "⚠" ++ NC c ++ " " ++ message).

Definition print_error (message : string) : M unit :=
  c <- get_colors;; print (RED c ++ "✗" ++ NC c ++ " " ++ message).

Definition print_header (self : Installer) : M unit :=
  c <- get_colors;;
  print (PyStr.nl ++ BLUE c ++ PyStr.mul "=" 68 ++ NC c);;
  print (BLUE c ++ "CODITECT Framework Cross-Platform Installation" ++ NC c);;
  print (BLUE c ++ PyStr.mul "=" 68 ++ NC c);;
  print (PyStr.nl ++ "Platform: " ++ os_type self);;
  print "".

(** *** Installer core *)

Definition check_python_version : M (bool * string) :=
  c <- get_colors;;
  print (BLUE c ++ "Checking Python version..." ++ NC c);;
  if tuple_lt (version_info h) [3; 8]%Z
  then ret (false, "Python 3.8+ required (found " ++ version_text h ++ ")")
  else print_status ("Python " ++ version_text h ++ " detected");;
       ret (true, version_text h).

Definition venv_command (self : Installer) : list string :=
  [get_python_executable self; "-m"; "venv"; path_str h (venv_path self)].

(** The [try] block at the end of [create_venv]. *)
Definition create_venv_try (self : Installer) : M bool :=
  try_except
    (subprocess_run h (venv_command self);;
     print_status ("Virtual environment created at " ++ path_str h (venv_path self));;
     ret true)
    is_CalledProcessError
    (fun e =>
       print_error ("Failed to create virtual environment: " ++ exc_text h e);;
       ret false).

Definition create_venv (self : Installer) (force_recreate : bool) : M bool :=
  c <- get_colors;;
  print (PyStr.nl ++ BLUE c ++ "Creating virtual environment..." ++ NC c ++ PyStr.nl);;
  present <- exists_ (venv_path self);;
  if present then
    if force_recreate then
      print_warning ("Removing existing venv at " ++ path_str h (venv_path self));;
      rmtree (venv_path self);;
      create_venv_try self
    else
      print_warning ("Virtual environment already exists at "
                     ++ path_str h (venv_path self));;
      line <- input "Do you want to recreate it? (y/N): ";;
      let response := PyStr.lower (PyStr.strip line) in
      if String.eqb response "y" then
        print "Removing existing venv...";;
        rmtree (venv_path self);;
        create_venv_try self
      else
        print_status "Using existing virtual environment";;
        ret true
  else create_venv_try self.

Definition pip_upgrade_command (self : Installer) : list string :=
  [path_str h (get_venv_python self); "-m"; "pip"; "install"; "--upgrade"; "pip"].

Definition requirements_file (self : Installer) : Path :=
  project_root self // "requirements.txt".

Definition pip_install_command (self : Installer) : list string :=
  [path_str h (get_venv_pip self); "install"; "-r";
   path_str h (requirements_file self)].

Definition gitpython_probe_command (self : Installer) : list string :=
  [path_str h (get_venv_python self); "-c"; "import git; print(git.__version__)"].

(** The inner [try] of [install_dependencies]: verify GitPython. *)
Definition verify_gitpython (self : Installer) : M unit :=
  try_except
    (out <- subprocess_run h (gitpython_probe_command self);;
     let version := PyStr.strip out in
     print_status ("GitPython " ++ version ++ " installed (80x faster git operations)"))
    is_CalledProcessError
    (fun _ =>
       print_warning
         "GitPython not installed - git operations will use subprocess fallback").

Definition install_dependencies (self : Installer) : M bool :=
  c <- get_colors;;
  print (PyStr.nl ++ BLUE c ++ "Installing dependencies..." ++ NC c ++ PyStr.nl);;
  present <- exists_ (venv_path self);;
  if negb present then
    print_error "Virtual environment not found. Run without --deps-only first.";;
    ret false
  else
    try_except
      (print "Upgrading pip...";;
       subprocess_run h (pip_upgrade_command self);;
       print_status "pip upgraded";;
       manifest <- exists_ (requirements_file self);;
       if manifest then
         print "Installing from requirements.txt...";;
         subprocess_run h (pip_install_command self);;
         print_status "Dependencies installed from requirements.txt";;
         verify_gitpython self;;
         ret true
       else
         print_warning "requirements.txt not found, skipping dependency installation";;
         ret true)
      is_CalledProcessError
      (fun e =>
         print_error ("Dependency installation failed: " ++ exc_text h e);;
         ret false).

Definition print_next_steps (self : Installer) : M unit :=
  c <- get_colors;;
  print (PyStr.nl ++ BLUE c ++ PyStr.mul "=" 68 ++ NC c);;
  print (GREEN c ++ "✓ Installation Complete!" ++ NC c);;
  print (BLUE c ++ PyStr.mul "=" 68 ++ NC c ++ PyStr.nl);;
  print (YELLOW c ++ "Next steps:" ++ NC c ++ PyStr.nl);;
  print "1. Activate the virtual environment:";;
  let activation_cmd := get_venv_activation_command self in
  (if String.eqb (os_type self) "Windows"
   then print ("   " ++ CYAN c ++ activation_cmd ++ NC c)
   else print ("   " ++ CYAN c ++ activation_cmd ++ NC c));;
  print (PyStr.nl ++ "2. Run tests to verify installation:");;
  let venv_python :=
    if String.eqb (os_type self) "Windows" then "python" else "python3" in
  print ("   " ++ CYAN c ++ venv_python
         ++ " tests/core/test_memory_context_integration.py" ++ NC c);;
  print ("   " ++ CYAN c ++ venv_python
         ++ " tests/core/test_performance_benchmarks.py" ++ NC c);;
  print (PyStr.nl ++ "3. Deactivate when done:");;
  print ("   " ++ CYAN c ++ "deactivate" ++ NC c ++ PyStr.nl);;
  print (YELLOW c ++ "Performance tip:" ++ NC c);;
  print "  GitPython provides 80x faster git operations compared to subprocess.";;
  print ("  All git operations in MEMORY-CONTEXT system will automatically use GitPython."
         ++ PyStr.nl).

Definition run (self : Installer) (venv_only deps_only : bool) : M Z :=
  print_header self;;
  checked <- check_python_version;;
  let '(success, message) := checked in
  if negb success then
    print_error message;; ret 1%Z
  else
    created <- (if negb deps_only then create_venv self false else ret true);;
    if negb created then ret 1%Z
    else
      installed <- (if negb venv_only then install_dependencies self else ret true);;
      if negb installed then ret 1%Z
      else print_next_steps self;; ret 0%Z.

(** [main], from the parsed arguments on: the parser of [install.py] has
    two independent [store_true] flags and accepts each of their four
    combinations. *)
Definition main (args : Namespace) : M Z :=
  if venv_only args && deps_only args then
    print "Error: Cannot use --venv-only and --deps-only together";;
    ret 1%Z
  else
    installer <- CrossPlatformInstaller;;
    run installer (venv_only args) (deps_only args).

(** [sys.exit(main())]: the exit code of the process and the world it leaves. *)
Definition script (args : Namespace) (w : World) : Z * World :=
  let '(r, w') := main args w in (exit_status r, w').

End WithHost.

End Install.

(** ** install_gui.py *)

Module InstallGui.

Inductive Dialog : Type :=
| ShowInfo (title text : string)
| ShowError (title text : string).

(** The widgets and flags of [InstallerGUI] that the handlers touch. *)
Record GUI : Type := mkGUI {
  installing : bool;
  installation_complete : bool;
  progress_label : string;
  progress_running : bool;
  progress_mode : string;
  progress_value : Z;
  log_text : string;
  button_text : string;
  button_enabled : bool;
  button_bg : string;
  dialogs : list Dialog
}.

Section WithHost.

Variable h : Host.

Definition _log_message (message : string) (g : GUI) : GUI :=
  mkGUI (installing g) (installation_complete g) (progress_label g)
        (progress_running g) (progress_mode g) (progress_value g)
        (log_text g ++ message ++ PyStr.nl)
        (button_text g) (button_enabled g) (button_bg g) (dialogs g).

Definition _update_progress (message : string) (g : GUI) : GUI :=
  mkGUI (installing g) (installation_complete g) message
        (progress_running g) (progress_mode g) (progress_value g)
        (log_text g) (button_text g) (button_enabled g) (button_bg g) (dialogs g).

Definition _log_messages (lines : list string) (g : GUI) : GUI :=
  fold_left (fun g l => _log_message l g) lines g.

(** [__init__] and [_create_ui] *)
Definition InstallerGUI : GUI :=
  _log_messages
    ["Welcome to the CODITECT Framework Installer!";
     "Detected platform: " ++ system h ++ " " ++ release h;
     "Python version: " ++ version_text h;
     "";
     "Click 'Install' to begin setup."]
    (mkGUI false false "Ready to install" false "indeterminate" 0 ""
           "Install" true "#2563eb" []).

(** [_start_installation]; the flag tells whether a worker was started. *)
Definition _start_installation (g : GUI) : GUI * bool :=
  if installing g then (g, false)
  else (mkGUI true false (progress_label g) true (progress_mode g)
              (progress_value g) "" (button_text g) false "#9ca3af" (dialogs g),
        true).

Definition put (m : Msg) : M unit := emit (Put m).

(** [_run_installation], the body of the worker thread *)
Definition _run_installation : M unit :=
  try_except
    (put (MLog "Starting installation...");;
     put (MLog "");;
     put (MProgress "Checking Python version...");;
     put (MLog "Checking Python version...");;
     if tuple_lt (version_info h) [3; 8]%Z then
       put (MError ("Python 3.8+ required (found " ++ version_text h ++ ")"))
     else
       put (MLog "✓ Python version OK");;
       put (MLog "");;
       put (MProgress "Creating virtual environment...");;
       put (MLog "Creating virtual environment...");;
       installer <- Install.CrossPlatformInstaller h;;
       created <- Install.create_venv h installer false;;
       if negb created then
         put (MError "Failed to create virtual environment")
       else
         put (MLog "✓ Virtual environment created");;
         put (MLog "");;
         put (MProgress "Installing dependencies...");;
         put (MLog "Installing dependencies...");;
         installed <- Install.install_dependencies h installer;;
         if negb installed then
           put (MError "Failed to install dependencies")
         else
           put (MLog "✓ Dependencies installed");;
           put (MLog "");;
           put (MSuccess "Installation complete!"))
    is_Exception
    (fun e => put (MError ("Installation failed: " ++ exc_text h e))).

(** [_installation_success] builds an installer object for the activation
    command; building it can only blank the colour table, which no handler
    reads, so the handlers are functions of the widgets alone. *)
Definition _installation_success (message : string) (g : GUI) : GUI :=
  let g := mkGUI false true (progress_label g) false "determinate" 100
                 (log_text g) (button_text g) (button_enabled g) (button_bg g)
                 (dialogs g) in
  let g := _update_progress message g in
  let g := _log_messages
             [""; PyStr.mul "=" 68; "✓ Installation Complete!"; PyStr.mul "=" 68; ""] g in
  let installer := Install.attributes h in
  let activation_cmd := Install.get_venv_activation_command h installer in
  let g := _log_messages
             ["Next steps:"; ""; "1. Activate the virtual environment:";
              "   " ++ activation_cmd; "";
              "2. Run tests to verify installation:"] g in
  let g := if String.eqb (system h) "Windows"
           then _log_message "   python tests/core/test_memory_context_integration.py" g
           else _log_message "   python3 tests/core/test_memory_context_integration.py" g in
  let g := _log_messages [""; "3. Deactivate when done:"; "   deactivate"] g in
  mkGUI (installing g) (installation_complete g) (progress_label g)
        (progress_running g) (progress_mode g) (progress_value g) (log_text g)
        "Reinstall" true "#2563eb"
        (dialogs g ++ [ShowInfo "Installation Complete"
                         ("CODITECT Framework has been installed successfully!"
                          ++ PyStr.nl ++ PyStr.nl ++ "See the log for next steps.")])%list.

Definition _installation_error (message : string) (g : GUI) : GUI :=
  let g := mkGUI false (installation_complete g) (progress_label g) false
                 (progress_mode g) (progress_value g) (log_text g)
                 (button_text g) (button_enabled g) (button_bg g) (dialogs g) in
  let g := _update_progress "Installation failed" g in
  let g := _log_messages
             [""; PyStr.mul "=" 68; "✗ Error: " ++ message; PyStr.mul "=" 68] g in
  mkGUI (installing g) (installation_complete g) (progress_label g)
        (progress_running g) (progress_mode g) (progress_value g) (log_text g)
        (button_text g) true "#2563eb"
        (dialogs g ++ [ShowError "Installation Failed"
                         ("An error occurred during installation:" ++ PyStr.nl
                          ++ PyStr.nl ++ message ++ PyStr.nl ++ PyStr.nl
                          ++ "Please check the log for details.")])%list.

(** One turn of the loop in [_process_messages]: the message just taken
    off the queue is dispatched on its tag. *)
Definition dispatch (m : Msg) (g : GUI) : GUI :=
  match m with
  | MLog message => _log_message message g
  | MProgress message => _update_progress message g
  | MSuccess message => _installation_success message g
  | MError message => _installation_error message g
  end.

(** *** The worker and the polling loop side by side

    The worker thread only appends to the queue, in the order of its
    [put]s; the UI thread only takes from its head ([get_nowait]) and
    dispatches.  A schedule is any interleaving of the two.  [handled]
    records what the UI has rendered. *)

Record Sys : Type := mkSys {
  pending : list Msg;
  queue : list Msg;
  handled : list Msg;
  gui : GUI
}.

Inductive Turn : Type := WorkerPut | UiGet.

Definition step (s : Sys) (t : Turn) : Sys :=
  match t with
  | WorkerPut =>
      match pending s with
      | [] => s
      | m :: rest => mkSys rest (queue s ++ [m])%list (handled s) (gui s)
      end
  | UiGet =>
      match queue s with
      | [] => s
      | m :: rest => mkSys (pending s) rest (handled s ++ [m])%list (dispatch m (gui s))
      end
  end.

Definition schedule (turns : list Turn) (s : Sys) : Sys := fold_left step turns s.

(** The moment after [_start_installation] on window [g], with a worker
    that is going to emit [msgs]. *)
Definition started (g : GUI) (msgs : list Msg) : Sys :=
  mkSys msgs [] [] (fst (_start_installation g)).

End WithHost.

End InstallGui.

(** ** launch.py *)

Module Launch.

(** The flags present on the command line of [launch.py] *)
Record CommandLine : Type := mkCommandLine {
  with_gui : bool;
  with_cli : bool;
  with_venv_only : bool;
  with_deps_only : bool
}.

(** What [parse_args] returns *)
Record Namespace : Type := mkNamespace {
  gui : bool;
  cli : bool;
  venv_only : bool;
  deps_only : bool
}.

(** [parser.parse_args()] for the parser that [main] builds: four
    [store_true] flags, with [--gui] and [--cli] in a mutually exclusive
    group.  A command line with both leaves through [parser.error], which
    ends the process with status 2; its message goes to standard error,
    which the world does not record. *)
Definition parse_args (argv : CommandLine) : M Namespace :=
  if with_gui argv && with_cli argv then raise (SystemExit 2)
  else ret (mkNamespace (with_gui argv) (with_cli argv)
                        (with_venv_only argv) (with_deps_only argv)).

Section WithHost.

Variable h : Host.

(** [install_gui.main()]: the window's event loop, whatever the operator
    does in it. *)
Variable install_gui_main : M unit.

Definition check_gui_available : M bool := ret (tkinter h).

(** [import install_gui]: the module leaves the process when [tkinter]
    cannot be imported. *)
Definition import_install_gui : M unit :=
  if tkinter h then ret tt
  else
    print "Error: tkinter not found. Please install tkinter:";;
    print "  Ubuntu/Debian: sudo apt-get install python3-tk";;
    print "  Fedora: sudo dnf install python3-tkinter";;
    print "  macOS: tkinter should be included with Python";;
    print "  Windows: tkinter should be included with Python";;
    raise (SystemExit 1).

Definition launch_cli (venv_only deps_only : bool) : M unit :=
  print "Launching CLI installer...";;
  try_except
    (installer <- Install.CrossPlatformInstaller h;;
     exit_code <- Install.run h installer venv_only deps_only;;
     raise (SystemExit exit_code))
    is_Exception
    (fun e =>
       print ("Failed to launch CLI installer: " ++ exc_text h e);;
       raise (SystemExit 1)).

Definition launch_gui : M unit :=
  print "Launching GUI installer...";;
  try_except
    (import_install_gui;; install_gui_main)
    is_Exception
    (fun e =>
       print ("Failed to launch GUI installer: " ++ exc_text h e);;
       print (PyStr.nl ++ "Falling back to CLI installer...");;
       launch_cli false false).

Definition print_banner : M unit :=
  print "";;
  print (PyStr.mul "=" 70);;
  print "CODITECT Framework Installer";;
  print (PyStr.mul "=" 70);;
  print "".

(** [main], for the flags given on the command line. *)
Definition main (argv : CommandLine) : M Z :=
  args <- parse_args argv;;
  if (venv_only args || deps_only args) && negb (cli args) then
    print "Error: --venv-only and --deps-only require --cli mode";;
    ret 1%Z
  else if venv_only args && deps_only args then
    print "Error: Cannot use --venv-only and --deps-only together";;
    ret 1%Z
  else
    print_banner;;
    if gui args then
      available <- check_gui_available;;
      if negb available then
        print "Error: GUI mode requested but tkinter not available";;
        print (PyStr.nl ++ "Install tkinter:");;
        print "  Ubuntu/Debian: sudo apt-get install python3-tk";;
        print "  Fedora: sudo dnf install python3-tkinter";;
        print "  macOS: tkinter should be included with Python";;
        print "  Windows: tkinter should be included with Python";;
        ret 1%Z
      else launch_gui;; ret 0%Z
    else if cli args then
      launch_cli (venv_only args) (deps_only args);; ret 0%Z
    else
      available <- check_gui_available;;
      (if available then
         print "✓ GUI available - launching graphical installer";;
         print "  (Use --cli flag to force command-line mode)";;
         print "";;
         launch_gui
       else
         print "ℹ GUI not available - launching command-line installer";;
         print "  (Install tkinter for graphical installer)";;
         print "";;
         launch_cli false false);;
      ret 0%Z.

(** The [__main__] block: [sys.exit(main())] under its handlers.  The
    model has no asynchronous interrupt, so only the [except Exception]
    clause can fire. *)
Definition script (argv : CommandLine) (w : World) : Z * World :=
  let '(r, w') :=
    try_except
      (code <- main argv;; raise (SystemExit code))
      is_Exception
      (fun e =>
         print (PyStr.nl ++ PyStr.nl ++ "Unexpected error: " ++ exc_text h e);;
         raise (SystemExit 1))
      w in
  (exit_status r, w').

End WithHost.

End Launch.

(** * Observations on a trace *)

(** The external commands that were run, in order. *)
Definition commands (tr : list Event) : list (list string) :=
  flat_map (fun e => match e with Run args => [args] | _ => [] end) tr.

(** The lines that were printed, in order. *)
Definition printed (tr : list Event) : list string :=
  flat_map (fun e => match e with Print l => [l] | _ => [] end) tr.

(** The messages put on the GUI queue, in order. *)
Definition puts (tr : list Event) : list Msg :=
  flat_map (fun e => match e with Put m => [m] | _ => [] end) tr.

(** Filesystem and process side effects: removals and commands. *)
Definition side_effects (tr : list Event) : list Event :=
  filter (fun e => match e with Rmtree _ | Run _ => true | _ => false end) tr.

(** The world after printing [lines] and nothing else. *)
Definition after_printing (w : World) (lines : list string) : World :=
  mkWorld (fs w) (stdin w) (colors w) (trace w ++ map Print lines).

(** The interpreter is older than 3.8. *)
Definition below_minimum (h : Host) : Prop :=
  (major h < 3 \/ (major h = 3 /\ minor h < 8))%Z.

(** The colour table is the class's own or the blanked one; the program
    never installs another. *)
Definition colors_known (w : World) : Prop :=
  colors w = Colors_class \/ colors w = Colors_blank.

(** The four outputs of the platform resolver. *)
Definition resolve (h : Host) (self : Install.Installer)
  : string * string * Path * Path :=
  (Install.get_python_executable self,
   Install.get_venv_activation_command h self,
   Install.get_venv_python self,
   Install.get_venv_pip self).

(** * A concrete host, for examples

    A Linux machine whose tools behave as expected: creating the
    environment makes its directory, the two package-installer commands
    succeed, and GitPython is not importable. *)

Definition demo_venv : Path := ["srv"; "coditect"; "venv"].

Definition demo_exec (args : list string) (fs : FS) : ProcOutcome * FS :=
  match args with
  | [_; flag; what; _] =>
      if String.eqb flag "-m" && String.eqb what "venv"
      then (Exited 0 "", demo_venv :: fs)
      else (Exited 0 "", fs)
  | [_; flag; _] =>
      if String.eqb flag "-c" then (Exited 1 "", fs) else (Exited 0 "", fs)
  | _ => (Exited 0 "", fs)
  end.

Definition demo_host (major minor micro : Z) : Host :=
  mkHost "Linux" "6.1.0" major minor micro None
         ["srv"; "coditect"; "scripts"; "install.py"] "/" "/" true
         demo_exec (fun _ => "error").

Definition demo_world (fs : FS) (stdin : list string) : World :=
  mkWorld fs stdin Colors_class [].

(** What [print_error], [print_warning] and [print_status] write for a
    message under colour table [c]. *)
Definition error_line (c : Colors) (message : string) : string :=
  RED c ++ "✗" ++ NC c ++ " " ++ message.

Definition warning_line (c : Colors) (message : string) : string :=
  YELLOW c ++ "⚠" ++ NC c ++ " " ++ message.

Definition status_line (c : Colors) (message : string) : string :=
  GREEN c ++ "✓" ++ NC c ++ " " ++ message.

Definition version_mismatch (h : Host) : string :=
  "Python 3.8+ required (found " ++ version_text h ++ ")".

Definition missing_environment : string :=
  "Virtual environment not found. Run without --deps-only first.".

(** The lines [print_header] writes. *)
Definition header_lines (c : Colors) (self : Install.Installer) : list string :=
  [PyStr.nl ++ BLUE c ++ PyStr.mul "=" 68 ++ NC c;
   BLUE c ++ "CODITECT Framework Cross-Platform Installation" ++ NC c;
   BLUE c ++ PyStr.mul "=" 68 ++ NC c;
   PyStr.nl ++ "Platform: " ++ Install.os_type self;
   ""].


(** A host on which every external command exits with status 1. *)
Definition failing_host : Host :=
  mkHost "Linux" "6.1.0" 3 11 2 None
         ["srv"; "coditect"; "scripts"; "install.py"] "/" "/" true
         (fun _ f => (Exited 1 "", f)) (fun _ => "error").


(** What one run of the worker puts on the queue. *)
Definition worker_messages (h : Host) (w : World) : list Msg :=
  skipn (length (puts (trace w)))
        (puts (trace (snd (InstallGui._run_installation h w)))).

Definition success_messages : list Msg :=
  [MLog "Starting installation..."; MLog "";
   MProgress "Checking Python version..."; MLog "Checking Python version...";
   MLog "✓ Python version OK"; MLog "";
   MProgress "Creating virtual environment..."; MLog "Creating virtual environment...";
   MLog "✓ Virtual environment created"; MLog "";
   MProgress "Installing dependencies..."; MLog "Installing dependencies...";
   MLog "✓ Dependencies installed"; MLog "";
   MSuccess "Installation complete!"].


(** The order C8 claims: a log message, a progress update, log messages,
    one success message. *)
Fixpoint logs_then_success (l : list Msg) : bool :=
  match l with
  | [MSuccess _] => true
  | MLog _ :: l' => logs_then_success l'
  | _ => false
  end.

Definition claimed_order (l : list Msg) : bool :=
  match l with
  | MLog _ :: MProgress _ :: l' => logs_then_success l'
  | _ => false
  end.

(** Log lines and progress updates, as opposed to the two final messages. *)
Definition intermediate (m : Msg) : Prop :=
  match m with MLog _ | MProgress _ => True | _ => False end.

(** The fair schedule: the worker puts [n] messages, then the UI takes [n]. *)
Definition puts_then_gets (n : nat) : list InstallGui.Turn :=
  (repeat InstallGui.WorkerPut n ++ repeat InstallGui.UiGet n)%list.


(** While a run is under way: what was emitted is what was rendered, what
    waits in the queue and what is still to come; and the button is not
    enabled before everything has been rendered. *)
Definition in_order (msgs : list Msg) (s : InstallGui.Sys) : Prop :=
  (InstallGui.handled s ++ InstallGui.queue s ++ InstallGui.pending s)%list = msgs
  /\ (InstallGui.button_enabled (InstallGui.gui s) = true -> InstallGui.handled s = msgs).

(** The directories removed, in order. *)
Definition removals (tr : list Event) : list Path :=
  flat_map (fun e => match e with Rmtree p => [p] | _ => [] end) tr.

(** The prompts shown to the operator, in order. *)
Definition prompts (tr : list Event) : list string :=
  flat_map (fun e => match e with Input p => [p] | _ => [] end) tr.

(** A host on which no external command can be started. *)
Definition unstartable_host : Host :=
  mkHost "Linux" "6.1.0" 3 11 2 None
         ["srv"; "coditect"; "scripts"; "install.py"] "/" "/" true
         (fun _ f => (NotStarted, f)) (fun _ => "error").

(** A Windows console, with or without ANSI support. *)
Definition windows_host (ansicon : option string) : Host :=
  mkHost "Windows" "10" 3 11 2 ansicon
         ["Users"; "dev"; "coditect"; "scripts"; "install.py"] "C:\" "\" false
         demo_exec (fun _ => "error").

(** While a run is under way the window is marked as installing. *)
Definition running (msgs : list Msg) (s : InstallGui.Sys) : Prop :=
  (InstallGui.handled s ++ InstallGui.queue s ++ InstallGui.pending s)%list = msgs
  /\ (InstallGui.handled s = msgs \/ InstallGui.installing (InstallGui.gui s) = true).

(** A host on which the manifest install fails and everything else works. *)
Definition broken_manifest_exec (args : list string) (fs : FS) : ProcOutcome * FS :=
  match args with
  | [_; what; _; _] =>
      if String.eqb what "install" then (Exited 1 "", fs) else (Exited 0 "", fs)
  | _ => (Exited 0 "", fs)
  end.

Definition broken_manifest_host : Host :=
  mkHost "Linux" "6.1.0" 3 11 2 None
         ["srv"; "coditect"; "scripts"; "install.py"] "/" "/" true
         broken_manifest_exec (fun _ => "error").

(** The lines [print_banner] writes. *)
Definition banner_lines : list string :=
  [""; PyStr.mul "=" 70; "CODITECT Framework Installer"; PyStr.mul "=" 70; ""].

(** The world in which the launcher's CLI mode starts the installer core:
    one more line printed, colours as the constructor leaves them. *)
Definition cli_start (h : Host) (w : World) : World :=
  mkWorld (fs w) (stdin w)
    (if String.eqb (system h) "Windows"
        && negb (match ANSICON h with Some v => PyStr.truthy v | None => false end)
     then Colors_blank else colors w)
    (trace w ++ [Print "Launching CLI installer..."]).

(** The window after rendering [msgs] one after the other. *)
Definition render (h : Host) (msgs : list Msg) (g : InstallGui.GUI) : InstallGui.GUI :=
  fold_left (fun g m => InstallGui.dispatch h m g) msgs g.

(** * Proof support *)

#[local] Arguments append : simpl never.
#[local] Arguments PyStr.mul : simpl never.
#[local] Arguments PyStr.strip : simpl never.
#[local] Arguments PyStr.lower : simpl never.
#[local] Arguments path_str : simpl never.
#[local] Arguments version_text : simpl never.
#[local] Arguments version_info : simpl never.
#[local] Arguments tuple_lt : simpl never.
#[local] Arguments path_exists : simpl never.
#[local] Arguments fs_rmtree : simpl never.
#[local] Arguments String.eqb : simpl never.
#[local] Arguments Install.venv_command : simpl never.
#[local] Arguments Install.pip_upgrade_command : simpl never.
#[local] Arguments Install.pip_install_command : simpl never.
#[local] Arguments Install.gitpython_probe_command : simpl never.
#[local] Arguments Install.requirements_file : simpl never.
#[local] Arguments Install.attributes : simpl never.

(** Unfold the monad and the installer's methods down to the primitives. *)
Ltac exec_core :=
  unfold Install.run, Install.print_header, Install.check_python_version,
    Install.create_venv, Install.create_venv_try, Install.install_dependencies,
    Install.verify_gitpython, Install.print_next_steps,
    Install.print_error, Install.print_status, Install.print_warning,
    try_except, bind, ret, print, emit, get_colors, set_colors, exists_,
    raise, input, rmtree, subprocess_run.

Lemma commands_app a b : commands (a ++ b) = (commands a ++ commands b)%list.
Proof. apply flat_map_app. Qed.

Lemma printed_app a b : printed (a ++ b) = (printed a ++ printed b)%list.
Proof. apply flat_map_app. Qed.

Lemma puts_app a b : puts (a ++ b) = (puts a ++ puts b)%list.
Proof. apply flat_map_app. Qed.

Lemma side_effects_app a b :
  side_effects (a ++ b) = (side_effects a ++ side_effects b)%list.
Proof. apply filter_app. Qed.

(** Push the observations through the appended events. *)
Ltac observe :=
  cbn;
  repeat rewrite ?commands_app, ?printed_app, ?puts_app, ?side_effects_app;
  cbn; repeat rewrite ?app_nil_r.

(** The code's tuple comparison is the order on (major, minor). *)
Lemma version_check_spec (h : Host) :
  tuple_lt (version_info h) [3; 8]%Z = true <-> below_minimum h.
Proof.
  unfold below_minimum, version_info, tuple_lt.
  destruct (Z.eqb_spec (major h) 3) as [E | N].
  - destruct (Z.eqb_spec (minor h) 8) as [E' | N'].
    + split; [discriminate | lia].
    + rewrite Z.ltb_lt. lia.
  - rewrite Z.ltb_lt. lia.
Qed.

Lemma version_check_passes (h : Host) :
  ~ below_minimum h -> tuple_lt (version_info h) [3; 8]%Z = false.
Proof.
  intros N. destruct (tuple_lt _ _) eqn:E; [|reflexivity].
  exfalso. apply N, version_check_spec, E.
Qed.

(** The constructor returns the attributes and touches only the colours. *)
Lemma constructor_spec h w :
  exists c, Install.CrossPlatformInstaller h w
            = (Ok (Install.attributes h), mkWorld (fs w) (stdin w) c (trace w))
            /\ (c = colors w \/ c = Colors_blank).
Proof.
  unfold Install.CrossPlatformInstaller, Install.disable_on_windows, bind, ret, set_colors.
  unfold Install.attributes at 1. cbn [Install.os_type].
  destruct w as [f s c t]; cbn [fs stdin colors trace].
  destruct (String.eqb (system h) "Windows"); cbn [andb].
  - destruct (negb _); eexists; split; try reflexivity; auto.
  - eexists; split; try reflexivity; auto.
Qed.

(** Printing is no side effect. *)
Lemma side_effects_prints lines : side_effects (map Print lines) = [].
Proof. induction lines; cbn; auto. Qed.

Lemma commands_prints lines : commands (map Print lines) = [].
Proof. induction lines; cbn; auto. Qed.

Lemma printed_prints lines : printed (map Print lines) = lines.
Proof. induction lines as [| l lines IH]; cbn; [reflexivity | f_equal; exact IH]. Qed.

Lemma after_printing_quiet w lines :
  fs (after_printing w lines) = fs w
  /\ side_effects (trace (after_printing w lines)) = side_effects (trace w)
  /\ commands (trace (after_printing w lines)) = commands (trace w)
  /\ printed (trace (after_printing w lines)) = (printed (trace w) ++ lines)%list.
Proof.
  unfold after_printing. cbn [fs trace].
  rewrite side_effects_app, commands_app, printed_app.
  rewrite side_effects_prints, commands_prints, printed_prints, !app_nil_r.
  repeat split; reflexivity.
Qed.

(** Sequencing after a step that returned. *)
Lemma bind_ok {A B} (c : M A) (k : A -> M B) w a w' :
  c w = (Ok a, w') -> bind c k w = k a w'.
Proof. unfold bind. intros ->. reflexivity. Qed.

Lemma print_header_spec self w :
  Install.print_header self w = (Ok tt, after_printing w (header_lines (colors w) self)).
Proof.
  exec_core. cbn. unfold after_printing, header_lines. cbn [map].
  repeat rewrite <- app_assoc. reflexivity.
Qed.

Lemma after_printing_more w l1 l2 :
  after_printing (after_printing w l1) l2 = after_printing w (l1 ++ l2).
Proof.
  unfold after_printing. cbn [fs stdin colors trace].
  rewrite map_app, app_assoc. reflexivity.
Qed.

Lemma print_spec s w : print s w = (Ok tt, after_printing w [s]).
Proof. reflexivity. Qed.

Lemma print_error_spec m w :
  Install.print_error m w = (Ok tt, after_printing w [error_line (colors w) m]).
Proof. reflexivity. Qed.

Lemma print_status_spec m w :
  Install.print_status m w = (Ok tt, after_printing w [status_line (colors w) m]).
Proof. reflexivity. Qed.

Lemma print_warning_spec m w :
  Install.print_warning m w = (Ok tt, after_printing w [warning_line (colors w) m]).
Proof. reflexivity. Qed.

Lemma check_python_version_spec h w :
  Install.check_python_version h w
  = if tuple_lt (version_info h) [3; 8]%Z
    then (Ok (false, version_mismatch h),
          after_printing w [BLUE (colors w) ++ "Checking Python version..." ++ NC (colors w)])
    else (Ok (true, version_text h),
          after_printing w [BLUE (colors w) ++ "Checking Python version..." ++ NC (colors w);
                            status_line (colors w) ("Python " ++ version_text h ++ " detected")]).
Proof.
  exec_core. cbn. destruct (tuple_lt _ _); cbn; unfold after_printing; cbn [map];
    repeat rewrite <- app_assoc; reflexivity.
Qed.

(** A run on an interpreter that is too old: header, check, error, 1. *)
Lemma run_below_minimum h self vo d w :
  below_minimum h ->
  exists lines,
    Install.run h self vo d w
    = (Ok 1%Z, after_printing w (lines ++ [error_line (colors w) (version_mismatch h)]))
    /\ lines = [PyStr.nl ++ BLUE (colors w) ++ PyStr.mul "=" 68 ++ NC (colors w);
                BLUE (colors w) ++ "CODITECT Framework Cross-Platform Installation"
                  ++ NC (colors w);
                BLUE (colors w) ++ PyStr.mul "=" 68 ++ NC (colors w);
                PyStr.nl ++ "Platform: " ++ Install.os_type self;
                "";
                BLUE (colors w) ++ "Checking Python version..." ++ NC (colors w)].
Proof.
  intros H. apply version_check_spec in H.
  eexists. split; [|reflexivity].
  unfold Install.run.
  rewrite (bind_ok _ _ _ _ _ (print_header_spec self w)).
  unfold bind at 1. rewrite check_python_version_spec, H. cbn [negb].
  unfold bind at 1. rewrite print_error_spec. unfold ret.
  rewrite !after_printing_more. reflexivity.
Qed.

(** Once the version check has passed, a run is its remaining phases. *)
Lemma run_after_check h self vo d w :
  ~ below_minimum h ->
  exists lines,
    Install.run h self vo d w
    = (created <- (if negb d then Install.create_venv h self false else ret true);;
       if negb created then ret 1%Z
       else
         installed <- (if negb vo then Install.install_dependencies h self
                       else ret true);;
         if negb installed then ret 1%Z
         else Install.print_next_steps h self;; ret 0%Z)
        (after_printing w lines).
Proof.
  intros N. apply version_check_passes in N.
  unfold Install.run.
  rewrite (bind_ok _ _ _ _ _ (print_header_spec self w)).
  unfold bind at 1. rewrite check_python_version_spec, N. cbn [negb].
  rewrite after_printing_more. eexists. reflexivity.
Qed.

(** The dependency phase refuses to start without an environment. *)
Lemma install_dependencies_missing_environment h self w :
  path_exists (fs w) (Install.venv_path self) = false ->
  Install.install_dependencies h self w
  = (Ok false,
     after_printing w
       [PyStr.nl ++ BLUE (colors w) ++ "Installing dependencies..." ++ NC (colors w)
          ++ PyStr.nl;
        error_line (colors w) missing_environment]).
Proof.
  intros Habs. unfold Install.install_dependencies.
  unfold bind at 1. unfold get_colors at 1.
  unfold bind at 1. rewrite print_spec.
  unfold bind at 1. unfold exists_ at 1. cbn [fs after_printing]. rewrite Habs. cbn [negb].
  unfold bind at 1.
  change (Install.print_error
            "Virtual environment not found. Run without --deps-only first.")
    with (Install.print_error missing_environment).
  rewrite print_error_spec. unfold ret. cbn [colors].
  unfold after_printing. cbn [fs stdin colors trace map].
  repeat rewrite <- app_assoc. reflexivity.
Qed.

(** Dependencies-only mode without an environment, on any installer object. *)
Lemma run_deps_only_missing_environment h self w :
  path_exists (fs w) (Install.venv_path self) = false ->
  let r := Install.run h self false true w in
  fst r = Ok 1%Z /\ fs (snd r) = fs w
  /\ side_effects (trace (snd r)) = side_effects (trace w)
  /\ (~ below_minimum h ->
      last (printed (trace (snd r))) "" = error_line (colors w) missing_environment).
Proof.
  intros Habs. cbn zeta.
  destruct (tuple_lt (version_info h) [3; 8]%Z) eqn:V.
  - apply version_check_spec in V.
    destruct (run_below_minimum h self false true w V) as (lines & -> & _).
    cbn [fst snd]. split; [reflexivity|].
    split; [apply after_printing_quiet|]. split; [apply after_printing_quiet|].
    intros N. contradiction.
  - assert (N : ~ below_minimum h).
    { intros B. apply version_check_spec in B. congruence. }
    destruct (run_after_check h self false true w N) as (lines & ->).
    cbn [negb].
    rewrite (bind_ok _ _ _ true (after_printing w lines)) by reflexivity.
    cbn [negb].
    rewrite (bind_ok _ _ _ _ _
               (install_dependencies_missing_environment h self
                  (after_printing w lines) Habs)).
    cbn [negb]. unfold ret. cbn [fst snd]. rewrite after_printing_more.
    split; [reflexivity|].
    split; [apply after_printing_quiet|]. split; [apply after_printing_quiet|].
    intros _.
    match goal with
    | |- context [after_printing w ?l] =>
        destruct (after_printing_quiet w l) as (_ & _ & _ & ->)
    end.
    rewrite app_assoc.
    match goal with
    | |- context [[?a; ?b]] => change [a; b] with ([a] ++ [b])%list
    end.
    rewrite !app_assoc. apply last_last.
Qed.

(** Commands are among the side effects. *)
Lemma commands_side_effects tr : commands (side_effects tr) = commands tr.
Proof.
  induction tr as [| e tr IH]; [reflexivity|].
  destruct e; cbn; try exact IH. f_equal. exact IH.
Qed.

Lemma same_commands tr tr' :
  side_effects tr' = side_effects tr -> commands tr' = commands tr.
Proof.
  intros E. rewrite <- (commands_side_effects tr'), E. apply commands_side_effects.
Qed.

(** * The installer core and the CLI front-end *)

(** C1. A run in dependencies-only mode whose environment directory does
    not exist fails with code 1, both as [run] and as the CLI process
    (whatever the other flag), leaves the filesystem as it was, removes
    nothing and runs no external command; when the interpreter is recent
    enough, the last line printed is the missing-environment error. *)
Theorem deps_only_without_environment_fails h vo w :
  path_exists (fs w) (Install.venv_path (Install.attributes h)) = false ->
  let r := Install.run h (Install.attributes h) false true w in
  let p := Install.script h (Install.mkNamespace vo true) w in
  (fst r = Ok 1%Z /\ fs (snd r) = fs w
   /\ side_effects (trace (snd r)) = side_effects (trace w)
   /\ (~ below_minimum h ->
       last (printed (trace (snd r))) "" = error_line (colors w) missing_environment))
  /\ fst p = 1%Z /\ fs (snd p) = fs w
  /\ side_effects (trace (snd p)) = side_effects (trace w)
  /\ commands (trace (snd p)) = commands (trace w).
Proof.
  intros Habs. split.
  - apply run_deps_only_missing_environment. exact Habs.
  - destruct vo.
    + unfold Install.script, Install.main, bind, ret, print, emit. observe.
      repeat split; reflexivity.
    + unfold Install.script, Install.main.
      cbn [Install.venv_only Install.deps_only andb]. unfold bind.
      destruct (constructor_spec h w) as (c & -> & _).
      pose proof (run_deps_only_missing_environment h (Install.attributes h)
                    (mkWorld (fs w) (stdin w) c (trace w)) Habs) as T.
      cbn zeta in T.
      destruct (Install.run h (Install.attributes h) false true _) as [r w'].
      cbn [fst snd] in *. destruct T as (-> & Hfs & Hse & _).
      repeat split; auto using same_commands.
Qed.

Lemma deps_only_without_environment_fails_witness :
  path_exists [] (Install.venv_path (Install.attributes (demo_host 3 11 2))) = false
  /\ fst (Install.script (demo_host 3 11 2) (Install.mkNamespace false true)
            (demo_world [] [])) = 1%Z.
Proof.
  split; [reflexivity|].
  exact (proj1 (proj2 (deps_only_without_environment_fails
                         (demo_host 3 11 2) false (demo_world [] []) eq_refl))).
Defined.

(** C2, as stated, fails: a launcher command line that carries both mode
    flags together with both --gui and --cli is turned down by the
    argument parser, and the process ends with status 2, not 1. *)
Lemma launcher_interface_flags_exit_2 :
  let p := Launch.script (demo_host 3 11 2) (ret tt)
             (Launch.mkCommandLine true true true true) (demo_world [] []) in
  fst p = 2%Z /\ fst p <> 1%Z.
Proof. cbn zeta. split; [reflexivity | discriminate]. Qed.

(** C2, amended. With both mode flags set, the CLI process ends with code
    1, and so does the launcher process unless --gui and --cli are given
    together, which the argument parser rejects first, with code 2.  In
    every case all the process has done is print at most one line of
    error: same filesystem, same pending input, no removal, no command. *)
Theorem both_mode_flags_rejected h gui_main g c w :
  Install.script h (Install.mkNamespace true true) w
  = (1%Z, after_printing w ["Error: Cannot use --venv-only and --deps-only together"])
  /\ Launch.script h gui_main (Launch.mkCommandLine g c true true) w
     = (if g && c then (2%Z, w)
        else (1%Z, after_printing w
                     [if c then "Error: Cannot use --venv-only and --deps-only together"
                      else "Error: --venv-only and --deps-only require --cli mode"]))
  /\ forall line, side_effects (trace (after_printing w [line])) = side_effects (trace w).
Proof.
  split; [reflexivity|]. split.
  - destruct g, c; reflexivity.
  - intros line. apply after_printing_quiet.
Qed.

(** C4. On an interpreter older than 3.8 the version check returns failure
    with the version-mismatch message; the run returns 1 having only
    printed (its last line is that error), with the filesystem untouched
    and no removal or command, and the CLI process ends with code 1 for any
    flags.  On any other interpreter the check succeeds. *)
Theorem version_gate h self vo d w :
  (below_minimum h ->
   fst (Install.check_python_version h w) = Ok (false, version_mismatch h)
   /\ (let r := Install.run h self vo d w in
       fst r = Ok 1%Z /\ fs (snd r) = fs w
       /\ side_effects (trace (snd r)) = side_effects (trace w)
       /\ commands (trace (snd r)) = commands (trace w)
       /\ last (printed (trace (snd r))) "" = error_line (colors w) (version_mismatch h))
   /\ forall args, fst (Install.script h args w) = 1%Z)
  /\ (~ below_minimum h ->
      fst (Install.check_python_version h w) = Ok (true, version_text h)).
Proof.
  split.
  - intros B. split; [|split].
    + apply version_check_spec in B. unfold Install.check_python_version.
      exec_core. rewrite B. reflexivity.
    + destruct (run_below_minimum h self vo d w B) as (lines & -> & _).
      cbn [fst snd].
      destruct (after_printing_quiet w
                  (lines ++ [error_line (colors w) (version_mismatch h)]))
        as (Hfs & Hse & Hc & Hp).
      repeat split; auto.
      rewrite Hp, app_assoc. apply last_last.
    + intros [v o]. unfold Install.script, Install.main. cbn [Install.venv_only Install.deps_only].
      destruct (v && o).
      * reflexivity.
      * unfold bind. destruct (constructor_spec h w) as (c & -> & _).
        destruct (run_below_minimum h (Install.attributes h) v o
                    (mkWorld (fs w) (stdin w) c (trace w)) B) as (lines & -> & _).
        reflexivity.
  - intros N. apply version_check_passes in N.
    exec_core. rewrite N. reflexivity.
Qed.

Lemma version_gate_witness :
  fst (Install.script (demo_host 3 7 9) (Install.mkNamespace false false)
         (demo_world [] [])) = 1%Z
  /\ fst (Install.check_python_version (demo_host 3 11 2) (demo_world [] []))
     = Ok (true, "3.11.2").
Proof.
  split.
  - refine (proj2 (proj2 (proj1 (version_gate (demo_host 3 7 9)
              (Install.attributes (demo_host 3 7 9)) false false (demo_world [] [])) _)) _).
    unfold below_minimum; cbn; lia.
  - refine (proj2 (version_gate (demo_host 3 11 2)
              (Install.attributes (demo_host 3 11 2)) false false (demo_world [] [])) _).
    unfold below_minimum; cbn; lia.
Defined.

(** C9. The version check comes before any look at the environment: in
    every run mode, and whether or not the environment directory exists,
    a run on an interpreter older than 3.8 returns 1 after printing only
    the header, the check line and the version-mismatch error; the
    missing-environment error is not among the lines printed. *)
Theorem version_check_precedes_environment_check h self vo d w :
  below_minimum h ->
  colors_known w ->
  let r := Install.run h self vo d w in
  fst r = Ok 1%Z
  /\ exists lines,
       snd r = after_printing w lines
       /\ last lines "" = error_line (colors w) (version_mismatch h)
       /\ ~ In (error_line (colors w) missing_environment) lines.
Proof.
  intros B K.
  destruct (run_below_minimum h self vo d w B) as (lines & E & L).
  cbn zeta. rewrite E. cbn [fst snd]. split; [reflexivity|].
  eexists. split; [reflexivity|]. split; [apply last_last|].
  subst lines. unfold error_line, version_mismatch, missing_environment.
  destruct K as [-> | ->];
    cbv [Colors_class Colors_blank RED NC BLUE PyStr.esc PyStr.nl PyStr.mul
         append app In];
    intros F; decompose [or] F; try discriminate; try contradiction.
Qed.

Lemma version_check_precedes_environment_check_witness :
  fst (Install.run (demo_host 3 7 9) (Install.attributes (demo_host 3 7 9))
         false true (demo_world [] [])) = Ok 1%Z.
Proof.
  refine (proj1 (version_check_precedes_environment_check (demo_host 3 7 9)
                   (Install.attributes (demo_host 3 7 9)) false true
                   (demo_world [] []) _ _)).
  - unfold below_minimum; cbn; lia.
  - left; reflexivity.
Defined.

(** * The environment-creation phase *)

Lemma path_under_refl p : path_under p p = true.
Proof.
  induction p as [| c p IH]; [reflexivity|].
  cbn [path_under]. rewrite String.eqb_refl. exact IH.
Qed.

(** After [rmtree] the directory does not exist. *)
Lemma rmtree_removes f p : path_exists (fs_rmtree f p) p = false.
Proof.
  unfold path_exists, fs_rmtree.
  induction f as [| q f IH]; [reflexivity|].
  cbn [filter]. destruct (path_under p q) eqn:U; cbn [negb]; [exact IH|].
  cbn [existsb]. rewrite IH, orb_false_r.
  unfold path_eqb. destruct (list_eq_dec string_dec p q) as [-> | _]; [|reflexivity].
  rewrite path_under_refl in U. discriminate.
Qed.

(** The operator declines: the phase prints, asks, and returns [True]. *)
Lemma create_venv_declined h self w line rest :
  path_exists (fs w) (Install.venv_path self) = true ->
  stdin w = line :: rest ->
  PyStr.lower (PyStr.strip line) <> "y" ->
  exists before, 
    Install.create_venv h self false w
    = (Ok true,
       mkWorld (fs w) rest (colors w)
         (trace w ++ map Print before
                  ++ [Input "Do you want to recreate it? (y/N): ";
                      Print (status_line (colors w) "Using existing virtual environment")])).
Proof.
  intros Hex Hin Hno. apply String.eqb_neq in Hno.
  exec_core. cbn. rewrite Hex. cbn. rewrite Hin. cbn. rewrite Hno. cbn.
  eexists [_; _]. cbn [map app]. repeat rewrite <- app_assoc. reflexivity.
Qed.

(** The operator accepts: removal, then the creation command. *)
Lemma create_venv_accepted h self w line rest :
  path_exists (fs w) (Install.venv_path self) = true ->
  stdin w = line :: rest ->
  PyStr.lower (PyStr.strip line) = "y" ->
  let r := Install.create_venv h self false w in
  side_effects (trace (snd r))
  = (side_effects (trace w)
     ++ [Rmtree (Install.venv_path self); Run (Install.venv_command h self)])%list
  /\ fs (snd r)
     = snd (exec h (Install.venv_command h self)
              (fs_rmtree (fs w) (Install.venv_path self))).
Proof.
  intros Hex Hin Hyes. apply String.eqb_eq in Hyes.
  exec_core. cbn. rewrite Hex. cbn. rewrite Hin. cbn. rewrite Hyes. cbn.
  destruct (exec h _ _) as [[rc out |] f']; cbn;
    [destruct (rc =? 0)%Z; cbn|]; observe; rewrite <- ?app_assoc; split; reflexivity.
Qed.

Lemma print_next_steps_prints h self w :
  exists lines, Install.print_next_steps h self w = (Ok tt, after_printing w lines).
Proof.
  exec_core. cbn.
  destruct (String.eqb (Install.os_type self) "Windows"); cbn;
    unfold after_printing; repeat rewrite <- app_assoc; cbn [app];
    match goal with
    | |- context [(trace w ++ ?evs)%list] => exists (printed evs)
    end; reflexivity.
Qed.

(** The dependency phase on an existing environment starts with the
    package-installer upgrade. *)
Lemma install_dependencies_starts_with_upgrade h self w :
  path_exists (fs w) (Install.venv_path self) = true ->
  exists more,
    commands (trace (snd (Install.install_dependencies h self w)))
    = (commands (trace w) ++ Install.pip_upgrade_command h self :: more)%list.
Proof.
  intros Hex. exec_core. cbn. rewrite Hex. cbn.
  repeat
    (match goal with
     | |- context [exec h ?a ?f] => destruct (exec h a f) as [[? ? |] ?]
     | |- context [(?rc =? 0)%Z] => destruct (rc =? 0)%Z
     | |- context [path_exists ?f ?p] => destruct (path_exists f p)
     end; cbn);
    observe; rewrite <- ?app_assoc; cbn [app]; eexists; reflexivity.
Qed.

(** C5. When the environment directory exists and the operator declines,
    the creation phase returns success with the filesystem exactly as it
    was, nothing removed and no command run; the run carries on as after a
    successful creation: in environment-only mode it ends with code 0, and
    in full mode the next thing it runs is the package-installer upgrade. *)
Theorem declined_recreation_keeps_environment h self w line rest :
  path_exists (fs w) (Install.venv_path self) = true ->
  stdin w = line :: rest ->
  PyStr.lower (PyStr.strip line) <> "y" ->
  let r := Install.create_venv h self false w in
  fst r = Ok true /\ fs (snd r) = fs w
  /\ side_effects (trace (snd r)) = side_effects (trace w)
  /\ (~ below_minimum h ->
      fst (Install.run h self true false w) = Ok 0%Z
      /\ exists more,
           commands (trace (snd (Install.run h self false false w)))
           = (commands (trace w) ++ Install.pip_upgrade_command h self :: more)%list).
Proof.
  intros Hex Hin Hno.
  destruct (create_venv_declined h self w line rest Hex Hin Hno) as (before & E).
  cbn zeta. rewrite E. cbn [fst snd fs trace].
  split; [reflexivity|]. split; [reflexivity|]. split.
  - rewrite !side_effects_app, side_effects_prints. cbn. rewrite !app_nil_r. reflexivity.
  - intros N. split.
    + destruct (run_after_check h self true false w N) as (lines & ->).
      cbn [negb]. unfold bind at 1.
      destruct (create_venv_declined h self (after_printing w lines) line rest
                  Hex Hin Hno) as (b2 & ->).
      cbn [negb]. unfold bind at 1. unfold ret at 1. cbn [negb].
      unfold bind.
      match goal with
      | |- context [Install.print_next_steps h self ?w0] =>
          destruct (print_next_steps_prints h self w0) as (l3 & ->)
      end.
      reflexivity.
    + destruct (run_after_check h self false false w N) as (lines & ->).
      cbn [negb]. unfold bind at 1.
      destruct (create_venv_declined h self (after_printing w lines) line rest
                  Hex Hin Hno) as (b2 & ->).
      cbn [negb]. unfold bind at 1.
      match goal with
      | |- context [Install.install_dependencies h self ?w0] =>
          destruct (install_dependencies_starts_with_upgrade h self w0 Hex) as (more & Hm);
          destruct (Install.install_dependencies h self w0) as [[[|] | e] w3]
      end; cbn [snd trace] in Hm; cbn [negb];
        [unfold bind, ret;
         destruct (print_next_steps_prints h self w3) as (l3 & ->);
         cbn [snd]; destruct (after_printing_quiet w3 l3) as (_ & _ & -> & _)
        | unfold ret; cbn [snd] | cbn [snd]];
        rewrite Hm; unfold after_printing; cbn [trace];
        rewrite !commands_app, !commands_prints; cbn;
        rewrite !app_nil_r; eexists; reflexivity.
Qed.

Lemma declined_recreation_keeps_environment_witness :
  let h := demo_host 3 11 2 in
  let w := demo_world [demo_venv] ["n"] in
  fst (Install.create_venv h (Install.attributes h) false w) = Ok true
  /\ fs (snd (Install.create_venv h (Install.attributes h) false w)) = [demo_venv].
Proof.
  cbn zeta.
  assert (PyStr.lower (PyStr.strip "n") <> "y") as Hno by (vm_compute; discriminate).
  pose proof (declined_recreation_keeps_environment (demo_host 3 11 2)
                (Install.attributes (demo_host 3 11 2))
                (demo_world [demo_venv] ["n"]) "n" [] eq_refl eq_refl Hno) as T.
  split; [exact (proj1 T) | exact (proj1 (proj2 T))].
Defined.

(** C10. With the environment directory present and recreation not forced,
    the phase removes the directory and runs the creation command exactly
    when the operator's answer, stripped and lowercased, is "y".  Then the
    command runs on a filesystem where the directory is gone.  Any other
    answer, "yes" and the empty answer among them, makes the phase return
    success with the filesystem as it was and nothing removed or run. *)
Theorem recreation_iff_answer_is_y h self w line rest :
  path_exists (fs w) (Install.venv_path self) = true ->
  stdin w = line :: rest ->
  let r := Install.create_venv h self false w in
  let venv := Install.venv_path self in
  (PyStr.lower (PyStr.strip line) = "y"
   <-> side_effects (trace (snd r))
       = (side_effects (trace w) ++ [Rmtree venv; Run (Install.venv_command h self)])%list)
  /\ (PyStr.lower (PyStr.strip line) = "y" ->
      fs (snd r) = snd (exec h (Install.venv_command h self) (fs_rmtree (fs w) venv))
      /\ path_exists (fs_rmtree (fs w) venv) venv = false)
  /\ (PyStr.lower (PyStr.strip line) <> "y" ->
      fst r = Ok true /\ fs (snd r) = fs w
      /\ side_effects (trace (snd r)) = side_effects (trace w))
  /\ PyStr.lower (PyStr.strip "yes") <> "y"
  /\ PyStr.lower (PyStr.strip "") <> "y".
Proof.
  intros Hex Hin. cbn zeta.
  assert (Decline : PyStr.lower (PyStr.strip line) <> "y" ->
            fst (Install.create_venv h self false w) = Ok true
            /\ fs (snd (Install.create_venv h self false w)) = fs w
            /\ side_effects (trace (snd (Install.create_venv h self false w)))
               = side_effects (trace w)).
  { intros Hno.
    destruct (create_venv_declined h self w line rest Hex Hin Hno) as (before & ->).
    cbn [fst snd fs trace]. repeat split.
    rewrite !side_effects_app, side_effects_prints. cbn. rewrite !app_nil_r. reflexivity. }
  split; [|split; [|split; [exact Decline|]]].
  - split.
    + intros Hyes. apply (create_venv_accepted h self w line rest Hex Hin Hyes).
    + intros Hse.
      destruct (string_dec (PyStr.lower (PyStr.strip line)) "y") as [Hyes | Hno];
        [exact Hyes|].
      destruct (Decline Hno) as (_ & _ & Hsame). rewrite Hsame in Hse.
      apply (f_equal (@List.length Event)) in Hse. rewrite length_app in Hse.
      cbn in Hse. lia.
  - intros Hyes. split.
    + apply (create_venv_accepted h self w line rest Hex Hin Hyes).
    + apply rmtree_removes.
  - split; vm_compute; discriminate.
Qed.

Lemma recreation_iff_answer_is_y_witness :
  let h := demo_host 3 11 2 in
  let w := demo_world [demo_venv] [" Y "] in
  side_effects (trace (snd (Install.create_venv h (Install.attributes h) false w)))
  = [Rmtree demo_venv; Run ["python3"; "-m"; "venv"; "/srv/coditect/venv"]].
Proof.
  cbn zeta.
  pose proof (recreation_iff_answer_is_y (demo_host 3 11 2)
                (Install.attributes (demo_host 3 11 2))
                (demo_world [demo_venv] [" Y "]) " Y " [] eq_refl eq_refl) as T.
  cbn zeta in T. exact (proj1 (proj1 T) eq_refl).
Defined.

(** * The dependency-installation phase *)

(** C3, as stated, fails: with no manifest the phase still reports failure
    when the environment directory is missing, and when the
    package-installer upgrade fails. *)
Lemma manifest_absent_not_always_success :
  (let h := demo_host 3 11 2 in
   let self := Install.attributes h in
   let w := demo_world [] [] in
   path_exists (fs w) (Install.requirements_file self) = false
   /\ fst (Install.install_dependencies h self w) = Ok false)
  /\ (let h := failing_host in
      let self := Install.attributes h in
      let w := demo_world [demo_venv] [] in
      path_exists (fs w) (Install.requirements_file self) = false
      /\ fst (Install.install_dependencies h self w) = Ok false).
Proof. repeat split; reflexivity. Qed.

(** C3, amended. When the manifest is absent from the filesystem the
    upgrade leaves, the manifest-install command is never run: the phase
    runs no command or only the upgrade.  If moreover the environment
    directory exists and the upgrade exits with status 0, the phase returns
    success, and its last line is the warning that the manifest was not
    found. *)
Theorem manifest_absent_skips_install h self w :
  path_exists (snd (exec h (Install.pip_upgrade_command h self) (fs w)))
              (Install.requirements_file self) = false ->
  let r := Install.install_dependencies h self w in
  (commands (trace (snd r)) = commands (trace w)
   \/ commands (trace (snd r))
      = (commands (trace w) ++ [Install.pip_upgrade_command h self])%list)
  /\ Install.pip_install_command h self <> Install.pip_upgrade_command h self
  /\ (path_exists (fs w) (Install.venv_path self) = true ->
      (exists out, fst (exec h (Install.pip_upgrade_command h self) (fs w)) = Exited 0 out) ->
      fst r = Ok true
      /\ fs (snd r) = snd (exec h (Install.pip_upgrade_command h self) (fs w))
      /\ last (printed (trace (snd r))) ""
         = warning_line (colors w)
             "requirements.txt not found, skipping dependency installation").
Proof.
  intros Habs. cbn zeta. split; [|split].
  - exec_core. cbn.
    destruct (path_exists (fs w) (Install.venv_path self)); cbn.
    + destruct (exec h _ _) as [[rc out |] f1] eqn:E; cbn in Habs |- *.
      * destruct (rc =? 0)%Z; cbn; [rewrite Habs; cbn|]; observe; right; reflexivity.
      * observe. right; reflexivity.
    + observe. left; reflexivity.
  - unfold Install.pip_install_command, Install.pip_upgrade_command. discriminate.
  - intros Hex (out & Hout). exec_core. cbn. rewrite Hex. cbn.
    destruct (exec h _ _) as [o f1] eqn:E. cbn in Habs, Hout |- *. subst o.
    cbn. rewrite Habs. observe. repeat split; try reflexivity.
    rewrite ?app_assoc. apply last_last.
Qed.

Lemma manifest_absent_skips_install_witness :
  let h := demo_host 3 11 2 in
  let w := demo_world [demo_venv] [] in
  fst (Install.install_dependencies h (Install.attributes h) w) = Ok true.
Proof.
  cbn zeta.
  refine (proj1 (proj2 (proj2 (manifest_absent_skips_install (demo_host 3 11 2)
            (Install.attributes (demo_host 3 11 2)) (demo_world [demo_venv] []) _)) _ _)).
  - reflexivity.
  - reflexivity.
  - exists "". reflexivity.
Defined.

(** C6. When the environment exists, the upgrade and the manifest install
    both exit with status 0, the phase returns success whatever the exit
    status of the GitPython probe; when the probe fails, all the phase
    adds after the install is the probe itself and one warning line. *)
Theorem probe_failure_is_only_a_warning h self w o1 f1 o2 f2 rc o3 f3 :
  path_exists (fs w) (Install.venv_path self) = true ->
  exec h (Install.pip_upgrade_command h self) (fs w) = (Exited 0 o1, f1) ->
  path_exists f1 (Install.requirements_file self) = true ->
  exec h (Install.pip_install_command h self) f1 = (Exited 0 o2, f2) ->
  exec h (Install.gitpython_probe_command h self) f2 = (Exited rc o3, f3) ->
  let r := Install.install_dependencies h self w in
  let c := colors w in
  fst r = Ok true
  /\ (rc <> 0%Z ->
      trace (snd r)
      = (trace w
         ++ [Print (PyStr.nl ++ BLUE c ++ "Installing dependencies..." ++ NC c ++ PyStr.nl);
             Print "Upgrading pip...";
             Run (Install.pip_upgrade_command h self);
             Print (status_line c "pip upgraded");
             Print "Installing from requirements.txt...";
             Run (Install.pip_install_command h self);
             Print (status_line c "Dependencies installed from requirements.txt");
             Run (Install.gitpython_probe_command h self);
             Print (warning_line c
                      "GitPython not installed - git operations will use subprocess fallback")])%list).
Proof.
  intros Hex Hup Hman Hinst Hprobe. cbn zeta.
  exec_core. cbn. rewrite Hex. cbn. rewrite Hup. cbn. rewrite Hman. cbn.
  rewrite Hinst. cbn. rewrite Hprobe. cbn.
  destruct (rc =? 0)%Z eqn:Z0; cbn.
  - split; [reflexivity|]. intros N. apply Z.eqb_eq in Z0. contradiction.
  - split; [reflexivity|]. intros _. repeat rewrite <- app_assoc. reflexivity.
Qed.

Lemma probe_failure_is_only_a_warning_witness :
  let h := demo_host 3 11 2 in
  let w := demo_world [demo_venv; ["srv"; "coditect"; "requirements.txt"]] [] in
  fst (Install.install_dependencies h (Install.attributes h) w) = Ok true.
Proof.
  cbn zeta.
  exact (proj1 (probe_failure_is_only_a_warning (demo_host 3 11 2)
           (Install.attributes (demo_host 3 11 2))
           (demo_world [demo_venv; ["srv"; "coditect"; "requirements.txt"]] [])
           "" _ "" _ 1%Z "" _ eq_refl eq_refl eq_refl eq_refl eq_refl)).
Defined.

(** * The platform resolver *)

(** C7. The four outputs are total functions that depend on the installer
    object only through its OS name and environment path; every OS name
    other than "Windows" gets what "Linux" gets; the two in-environment
    paths lie in one directory, and the activation command names the
    activation script of that same directory. *)
Theorem platform_resolver_consistent h sd pr sd' pr' venv os :
  let self := Install.mkInstaller sd pr venv os in
  let windows := String.eqb os "Windows" in
  resolve h self = resolve h (Install.mkInstaller sd' pr' venv os)
  /\ resolve h self
     = resolve h (Install.mkInstaller sd pr venv (if windows then "Windows" else "Linux"))
  /\ resolve h (Install.mkInstaller sd pr venv "Linux")
     = ("python3", "source " ++ path_str h (venv // "bin" // "activate"),
        venv // "bin" // "python", venv // "bin" // "pip")
  /\ path_parent (Install.get_venv_pip self) = path_parent (Install.get_venv_python self)
  /\ Install.get_venv_activation_command h self
     = (if windows then "" else "source ")
       ++ path_str h (path_parent (Install.get_venv_python self)
                      // (if windows then "activate.bat" else "activate")).
Proof.
  cbn zeta.
  assert (P : forall (p : Path) a b, path_parent (p // a // b) = p // a).
  { intros p a b. unfold path_parent, path_div. apply removelast_last. }
  unfold resolve, Install.get_python_executable, Install.get_venv_activation_command,
    Install.get_venv_python, Install.get_venv_pip.
  cbn [Install.os_type Install.venv_path].
  destruct (String.eqb os "Windows") eqn:W.
  - repeat split; rewrite ?P; reflexivity.
  - repeat split; rewrite ?P; reflexivity.
Qed.

(** * The GUI front-end *)

(** Case analysis on everything the environment decides. *)
Ltac environment_cases h :=
  repeat
    (match goal with
     | |- context [exec h ?a ?f] => destruct (exec h a f) as [[? ? |] ?]
     | |- context [(?rc =? 0)%Z] => destruct (rc =? 0)%Z
     | |- context [path_exists ?f ?p] => destruct (path_exists f p)
     | |- context [String.eqb ?a ?b] => destruct (String.eqb a b)
     | |- context [match stdin ?w with _ => _ end] => destruct (stdin w)
     end; cbn).

(** The installer's phases put nothing on the queue. *)
Lemma create_venv_puts_nothing h self force w :
  puts (trace (snd (Install.create_venv h self force w))) = puts (trace w).
Proof.
  exec_core. cbn. destruct force; environment_cases h; observe; reflexivity.
Qed.

Lemma install_dependencies_puts_nothing h self w :
  puts (trace (snd (Install.install_dependencies h self w))) = puts (trace w).
Proof.
  exec_core. cbn. environment_cases h; observe; reflexivity.
Qed.

Lemma worker_outcomes h w :
  exists msgs,
    puts (trace (snd (InstallGui._run_installation h w))) = (puts (trace w) ++ msgs)%list
    /\ (msgs = success_messages \/ forall t, ~ In (MSuccess t) msgs).
Proof.
  unfold InstallGui._run_installation, InstallGui.put, try_except.
  unfold bind at 1 2 3 4. unfold emit at 1 2 3 4. cbn.
  destruct (tuple_lt (version_info h) [3; 8]%Z).
  - unfold emit. observe. repeat rewrite <- app_assoc. cbn [app].
    eexists. split; [reflexivity|]. right.
    intros t F. cbn in F. decompose [or] F; try discriminate; contradiction.
  - unfold bind at 1 2 3 4. unfold emit at 1 2 3 4. cbn.
    unfold bind at 1.
    match goal with
    | |- context [Install.CrossPlatformInstaller h ?w0] =>
        destruct (constructor_spec h w0) as (c & -> & _)
    end.
    cbn [fs stdin trace]. unfold bind at 1.
    match goal with
    | |- context [Install.create_venv h ?s false ?w0] =>
        pose proof (create_venv_puts_nothing h s false w0) as P1;
        destruct (Install.create_venv h s false w0) as [[[|] | e] w1]
    end; cbn [snd trace negb] in P1 |- *.
    + unfold bind at 1 2 3 4. unfold emit at 1 2 3 4. cbn. unfold bind at 1.
      match goal with
      | |- context [Install.install_dependencies h ?s ?w0] =>
          pose proof (install_dependencies_puts_nothing h s w0) as P2;
          destruct (Install.install_dependencies h s w0) as [[[|] | e] w2]
      end; cbn [snd trace negb] in P2 |- *.
      * unfold bind, emit. cbn. rewrite !puts_app, P2, !puts_app, P1, !puts_app. cbn.
        repeat rewrite <- app_assoc. cbn [app].
        eexists. split; [reflexivity|]. left. reflexivity.
      * unfold emit. cbn. rewrite !puts_app, P2, !puts_app, P1, !puts_app. cbn.
        repeat rewrite <- app_assoc. cbn [app].
        eexists. split; [reflexivity|]. right.
        intros t F. cbn in F. decompose [or] F; try discriminate; contradiction.
      * destruct (is_Exception e); unfold emit; cbn;
          rewrite ?puts_app, P2, !puts_app, P1, !puts_app; cbn;
          repeat rewrite <- app_assoc; cbn [app];
          (eexists; split; [reflexivity|]); right;
          intros t F; cbn in F; decompose [or] F; try discriminate; contradiction.
    + unfold emit. cbn. rewrite !puts_app, P1, !puts_app. cbn.
      repeat rewrite <- app_assoc. cbn [app].
      eexists. split; [reflexivity|]. right.
      intros t F. cbn in F. decompose [or] F; try discriminate; contradiction.
    + destruct (is_Exception e); unfold emit; cbn;
        rewrite ?puts_app, P1, !puts_app; cbn;
        repeat rewrite <- app_assoc; cbn [app];
        (eexists; split; [reflexivity|]); right;
        intros t F; cbn in F; decompose [or] F; try discriminate; contradiction.
Qed.

Lemma worker_puts h w :
  puts (trace (snd (InstallGui._run_installation h w)))
  = (puts (trace w) ++ worker_messages h w)%list.
Proof.
  destruct (worker_outcomes h w) as (msgs & E & _).
  unfold worker_messages. rewrite E.
  rewrite skipn_app, skipn_all, Nat.sub_diag. reflexivity.
Qed.

Lemma worker_success_sequence h w t :
  In (MSuccess t) (worker_messages h w) -> worker_messages h w = success_messages.
Proof.
  destruct (worker_outcomes h w) as (msgs & E & C).
  assert (worker_messages h w = msgs) as ->.
  { apply (app_inv_head (puts (trace w))). rewrite <- worker_puts. exact E. }
  destruct C as [-> | C]; [reflexivity|]. intros F. destruct (C t F).
Qed.

(** A final message inside a list that ends the intermediate ones is the
    last element. *)
Lemma final_message_is_last (l1 l2 pre : list Msg) m x :
  Forall intermediate pre -> ~ intermediate m ->
  (l1 ++ m :: l2 = pre ++ [x])%list -> l1 = pre /\ m = x /\ l2 = [].
Proof.
  intros Hpre Hm. revert pre Hpre.
  induction l1 as [| a l1 IH]; intros pre Hpre E.
  - destruct pre as [| p pre]; cbn in E.
    + injection E as -> ->. auto.
    + injection E as -> _. inversion Hpre; subst. contradiction.
  - destruct pre as [| p pre]; cbn in E.
    + injection E as _ E. destruct l1; discriminate.
    + injection E as -> E. inversion Hpre; subst.
      destruct (IH pre H2 E) as (-> & -> & ->). auto.
Qed.

Lemma dispatch_intermediate h m g :
  intermediate m ->
  InstallGui.button_enabled (InstallGui.dispatch h m g) = InstallGui.button_enabled g.
Proof. destruct m; cbn; intros I; try contradiction; reflexivity. Qed.

Lemma dispatch_final h m g :
  ~ intermediate m -> InstallGui.button_enabled (InstallGui.dispatch h m g) = true.
Proof. destruct m; cbn; intros I; try (exfalso; exact (I Logic.I)); reflexivity. Qed.

Lemma step_in_order h pre x s turn :
  Forall intermediate pre -> ~ intermediate x ->
  in_order (pre ++ [x]) s -> in_order (pre ++ [x]) (InstallGui.step h s turn).
Proof.
  intros Hpre Hx Inv. pose proof Inv as [Hall Hbtn].
  destruct turn; unfold InstallGui.step.
  - destruct (InstallGui.pending s) as [| m rest] eqn:P; [exact Inv|].
    split; cbn.
    + rewrite <- Hall, <- !app_assoc. reflexivity.
    + exact Hbtn.
  - destruct (InstallGui.queue s) as [| m rest] eqn:Q; [exact Inv|].
    assert (Hall' : ((InstallGui.handled s ++ [m]) ++ rest ++ InstallGui.pending s)%list
                    = (pre ++ [x])%list).
    { rewrite <- Hall, <- !app_assoc. reflexivity. }
    split; cbn; [exact Hall'|].
    assert (Dec : intermediate m \/ ~ intermediate m)
      by (destruct m; cbn; auto).
    destruct Dec as [I | F].
    + rewrite (dispatch_intermediate h m _ I). intros B.
      specialize (Hbtn B). rewrite Hbtn in Hall.
      rewrite <- (app_nil_r (pre ++ [x])) in Hall at 2.
      apply app_inv_head in Hall. discriminate.
    + intros _. rewrite <- app_assoc in Hall'. cbn in Hall'.
      destruct (final_message_is_last _ _ _ _ _ Hpre F Hall') as (-> & -> & _).
      reflexivity.
Qed.

Lemma schedule_in_order h pre x turns :
  Forall intermediate pre -> ~ intermediate x ->
  forall s, in_order (pre ++ [x]) s ->
            in_order (pre ++ [x]) (InstallGui.schedule h turns s).
Proof.
  intros Hpre Hx. unfold InstallGui.schedule.
  induction turns as [| turn turns IH]; intros s I; cbn [fold_left]; [exact I|].
  apply IH. apply step_in_order; assumption.
Qed.

Lemma started_in_order g msgs :
  InstallGui.installing g = false -> in_order msgs (InstallGui.started g msgs).
Proof.
  intros N. unfold in_order, InstallGui.started, InstallGui._start_installation.
  rewrite N. cbn. split; [reflexivity | discriminate].
Qed.

Lemma success_messages_shape :
  exists pre, success_messages = (pre ++ [MSuccess "Installation complete!"])%list
              /\ Forall intermediate pre.
Proof.
  exists (removelast success_messages). split; [reflexivity|].
  cbn. repeat constructor.
Qed.

(** C8, as stated, fails: on a run that succeeds the worker's messages are
    not a log message, a progress update, log messages and a success. *)
Lemma claimed_message_order_fails :
  let h := demo_host 3 11 2 in
  let w := demo_world [] [] in
  In (MSuccess "Installation complete!") (worker_messages h w)
  /\ claimed_order (worker_messages h w) = false.
Proof.
  cbn zeta. split; [|vm_compute; reflexivity].
  vm_compute. do 14 right. left. reflexivity.
Qed.

(** C8, amended. A worker run that emits a success message emits exactly
    fifteen messages: two log lines, then three times a progress update
    followed by three log lines, then the one success message, which is
    last.  Under every interleaving of the worker's puts and the UI's
    gets, the action button is enabled again only once the UI has rendered
    all of them, in order; and the fair schedule does reach that state. *)
Theorem gui_success_messages_and_rendering h w g turns t :
  In (MSuccess t) (worker_messages h w) ->
  InstallGui.installing g = false ->
  worker_messages h w = success_messages
  /\ (let s := InstallGui.schedule h turns
                 (InstallGui.started g (worker_messages h w)) in
      InstallGui.button_enabled (InstallGui.gui s) = true ->
      InstallGui.handled s = worker_messages h w)
  /\ (let s := InstallGui.schedule h (puts_then_gets 15)
                 (InstallGui.started g (worker_messages h w)) in
      InstallGui.button_enabled (InstallGui.gui s) = true
      /\ InstallGui.handled s = worker_messages h w).
Proof.
  intros Hs Hg. pose proof (worker_success_sequence h w t Hs) as E.
  rewrite E. split; [reflexivity|]. split.
  - cbn zeta. destruct success_messages_shape as (pre & -> & Hpre).
    apply (schedule_in_order h pre (MSuccess "Installation complete!") turns Hpre
             (fun F => F) (InstallGui.started g (pre ++ [MSuccess "Installation complete!"]))
             (started_in_order g _ Hg)).
  - cbn zeta. unfold InstallGui.started, InstallGui._start_installation.
    rewrite Hg. split; reflexivity.
Qed.

Lemma gui_success_messages_and_rendering_witness :
  let h := demo_host 3 11 2 in
  worker_messages h (demo_world [] []) = success_messages.
Proof.
  cbn zeta.
  refine (proj1 (gui_success_messages_and_rendering (demo_host 3 11 2)
                   (demo_world [] []) (InstallGui.InstallerGUI (demo_host 3 11 2))
                   (puts_then_gets 15) "Installation complete!" _ _)).
  - vm_compute. do 14 right. left. reflexivity.
  - reflexivity.
Defined.

(** * Further properties of the installer core *)

Lemma removals_app a b : removals (a ++ b) = (removals a ++ removals b)%list.
Proof. apply flat_map_app. Qed.

Lemma prompts_app a b : prompts (a ++ b) = (prompts a ++ prompts b)%list.
Proof. apply flat_map_app. Qed.

Ltac observe_all :=
  cbn;
  repeat rewrite ?commands_app, ?printed_app, ?puts_app, ?side_effects_app,
    ?removals_app, ?prompts_app;
  cbn; repeat rewrite ?app_nil_r.

(** The [try] block of [create_venv], outcome by outcome. *)
Lemma create_venv_try_spec h self w :
  Install.create_venv_try h self w
  = let cmd := Install.venv_command h self in
    match exec h cmd (fs w) with
    | (Exited rc out, f1) =>
        if (rc =? 0)%Z
        then (Ok true,
              mkWorld f1 (stdin w) (colors w)
                (trace w ++ [Run cmd;
                             Print (status_line (colors w)
                                      ("Virtual environment created at "
                                       ++ path_str h (Install.venv_path self)))]))
        else (Ok false,
              mkWorld f1 (stdin w) (colors w)
                (trace w ++ [Run cmd;
                             Print (error_line (colors w)
                                      ("Failed to create virtual environment: "
                                       ++ exc_text h (CalledProcessError cmd rc)))]))
    | (NotStarted, f1) =>
        (Raise (OSError cmd), mkWorld f1 (stdin w) (colors w) (trace w ++ [Run cmd]))
    end.
Proof.
  exec_core. cbn.
  destruct (exec h _ _) as [[rc out |] f1]; cbn; [destruct (rc =? 0)%Z; cbn|];
    repeat rewrite <- app_assoc; reflexivity.
Qed.

(** With no environment directory the phase goes straight to the command. *)
Lemma create_venv_fresh h self force w :
  path_exists (fs w) (Install.venv_path self) = false ->
  Install.create_venv h self force w
  = Install.create_venv_try h self
      (after_printing w [PyStr.nl ++ BLUE (colors w) ++ "Creating virtual environment..."
                           ++ NC (colors w) ++ PyStr.nl]).
Proof.
  intros Habs. unfold Install.create_venv.
  unfold bind at 1. unfold get_colors at 1.
  unfold bind at 1. rewrite print_spec.
  unfold bind at 1. unfold exists_ at 1. cbn [fs after_printing]. rewrite Habs.
  reflexivity.
Qed.

Lemma removals_prints lines : removals (map Print lines) = [].
Proof. induction lines; cbn; auto. Qed.

Lemma prompts_prints lines : prompts (map Print lines) = [].
Proof. induction lines; cbn; auto. Qed.

#[local] Arguments side_effects !tr.
#[local] Arguments commands !tr.
#[local] Arguments printed !tr.
#[local] Arguments puts !tr.
#[local] Arguments removals !tr.
#[local] Arguments prompts !tr.

(** Normalise the observations of a world built by symbolic execution. *)
Ltac settle :=
  unfold after_printing; cbn [fs stdin colors trace fst snd];
  repeat rewrite ?side_effects_app, ?commands_app, ?removals_app, ?prompts_app,
    ?printed_app, ?puts_app, ?side_effects_prints, ?commands_prints, ?removals_prints,
    ?prompts_prints;
  cbn;
  repeat rewrite ?app_nil_r.

Lemma install_dependencies_no_manifest h self w o f1 :
  path_exists (fs w) (Install.venv_path self) = true ->
  exec h (Install.pip_upgrade_command h self) (fs w) = (Exited 0 o, f1) ->
  path_exists f1 (Install.requirements_file self) = false ->
  Install.install_dependencies h self w
  = (Ok true,
     mkWorld f1 (stdin w) (colors w)
       (trace w
        ++ [Print (PyStr.nl ++ BLUE (colors w) ++ "Installing dependencies..."
                   ++ NC (colors w) ++ PyStr.nl);
            Print "Upgrading pip...";
            Run (Install.pip_upgrade_command h self);
            Print (status_line (colors w) "pip upgraded");
            Print (warning_line (colors w)
                     "requirements.txt not found, skipping dependency installation")])).
Proof.
  intros Hex Hup Hman. exec_core. cbn. rewrite Hex. cbn. rewrite Hup. cbn.
  rewrite Hman. cbn. repeat rewrite <- app_assoc. reflexivity.
Qed.

(** X1. A first installation with no manifest: on a recent enough
    interpreter, with no environment directory, a creation command that
    exits with status 0 and leaves the directory in place, a successful
    upgrade and no manifest afterwards, a full run returns 0; its side
    effects are exactly the creation command followed by the upgrade, and
    it never reads the operator's input. *)
Theorem fresh_install_without_manifest h self w o1 f1 o2 f2 :
  ~ below_minimum h ->
  path_exists (fs w) (Install.venv_path self) = false ->
  exec h (Install.venv_command h self) (fs w) = (Exited 0 o1, f1) ->
  path_exists f1 (Install.venv_path self) = true ->
  exec h (Install.pip_upgrade_command h self) f1 = (Exited 0 o2, f2) ->
  path_exists f2 (Install.requirements_file self) = false ->
  let r := Install.run h self false false w in
  fst r = Ok 0%Z /\ fs (snd r) = f2
  /\ side_effects (trace (snd r))
     = (side_effects (trace w)
        ++ [Run (Install.venv_command h self); Run (Install.pip_upgrade_command h self)])%list
  /\ stdin (snd r) = stdin w.
Proof.
  intros N Habs Hc Hex Hup Hman.
  assert (E : exists wf,
             Install.run h self false false w = (Ok 0%Z, wf)
             /\ fs wf = f2
             /\ side_effects (trace wf)
                = (side_effects (trace w)
                   ++ [Run (Install.venv_command h self);
                       Run (Install.pip_upgrade_command h self)])%list
             /\ stdin wf = stdin w).
  { destruct (run_after_check h self false false w N) as (lines & ->).
    cbn [negb].
    assert (E1 : exists w1,
               Install.create_venv h self false (after_printing w lines) = (Ok true, w1)
               /\ fs w1 = f1 /\ stdin w1 = stdin w
               /\ side_effects (trace w1)
                  = (side_effects (trace w) ++ [Run (Install.venv_command h self)])%list).
    { rewrite create_venv_fresh by exact Habs. rewrite create_venv_try_spec.
      cbn [fs after_printing]. cbn zeta. rewrite Hc. cbn [Z.eqb].
      eexists. split; [reflexivity|]. settle. repeat split. }
    destruct E1 as (w1 & E1 & F1 & S1 & T1).
    rewrite (bind_ok _ _ _ _ _ E1). cbn [negb].
    assert (Hex1 : path_exists (fs w1) (Install.venv_path self) = true)
      by (rewrite F1; exact Hex).
    assert (Hup1 : exec h (Install.pip_upgrade_command h self) (fs w1) = (Exited 0 o2, f2))
      by (rewrite F1; exact Hup).
    rewrite (bind_ok _ _ _ _ _
               (install_dependencies_no_manifest h self w1 o2 f2 Hex1 Hup1 Hman)).
    cbn [negb].
    match goal with
    | |- context [bind (Install.print_next_steps h self) _ ?w0] =>
        destruct (print_next_steps_prints h self w0) as (l3 & E3);
        rewrite (bind_ok _ _ _ _ _ E3)
    end.
    unfold ret. eexists. split; [reflexivity|]. settle. rewrite T1, <- app_assoc.
    repeat split. exact S1. }
  destruct E as (wf & -> & ? & ? & ?). cbn [fst snd]. auto.
Qed.

(** What the creation phase can and cannot do, whatever the environment. *)
Lemma create_venv_effects h self force w :
  let r := Install.create_venv h self force w in
  (commands (trace (snd r)) = commands (trace w)
   \/ commands (trace (snd r)) = (commands (trace w) ++ [Install.venv_command h self])%list)
  /\ colors (snd r) = colors w
  /\ (forall e, fst r = Raise e -> is_Exception e = true).
Proof.
  cbn zeta. exec_core. cbn.
  destruct force; environment_cases h; settle;
    (split; [auto | split; [reflexivity | try discriminate; intros e [= <-]; reflexivity]]).
Qed.

(** What the dependency phase can and cannot do, whatever the environment. *)
Lemma install_dependencies_effects h self w :
  let r := Install.install_dependencies h self w in
  let up := Install.pip_upgrade_command h self in
  let inst := Install.pip_install_command h self in
  let probe := Install.gitpython_probe_command h self in
  (exists cmds, commands (trace (snd r)) = (commands (trace w) ++ cmds)%list
                /\ (cmds = [] \/ cmds = [up] \/ cmds = [up; inst]
                    \/ cmds = [up; inst; probe]))
  /\ removals (trace (snd r)) = removals (trace w)
  /\ prompts (trace (snd r)) = prompts (trace w)
  /\ stdin (snd r) = stdin w
  /\ colors (snd r) = colors w
  /\ (forall e, fst r = Raise e -> is_Exception e = true).
Proof.
  cbn zeta. exec_core. cbn.
  environment_cases h; settle; repeat rewrite <- app_assoc; cbn [app];
    (split;
     [eexists; split; [first [reflexivity | symmetry; apply app_nil_r] | auto 6]
     | repeat split; try reflexivity; intros e [= <-]; reflexivity]).
Qed.

Lemma version_cases h : below_minimum h \/ ~ below_minimum h.
Proof. unfold below_minimum. lia. Qed.

Lemma print_next_steps_effects h self w :
  exists w', Install.print_next_steps h self w = (Ok tt, w')
             /\ fs w' = fs w /\ stdin w' = stdin w /\ colors w' = colors w
             /\ commands (trace w') = commands (trace w)
             /\ side_effects (trace w') = side_effects (trace w)
             /\ removals (trace w') = removals (trace w)
             /\ prompts (trace w') = prompts (trace w).
Proof.
  destruct (print_next_steps_prints h self w) as (l & ->).
  eexists. split; [reflexivity|]. settle. repeat split.
Qed.

Lemma bind_raise {A B} (c : M A) (k : A -> M B) w e w' :
  c w = (Raise e, w') -> bind c k w = (Raise e, w').
Proof. unfold bind. intros ->. reflexivity. Qed.

(** A step of a run ends in one of three ways. *)
Lemma phase_cases (c : M bool) w :
  (forall e, fst (c w) = Raise e -> is_Exception e = true) ->
  exists w1, snd (c w) = w1
             /\ (c w = (Ok true, w1) \/ c w = (Ok false, w1)
                 \/ exists e, is_Exception e = true /\ c w = (Raise e, w1)).
Proof.
  intros He. destruct (c w) as [[[|] | e] w1]; cbn [fst snd] in *; exists w1;
    (split; [reflexivity|]);
    [left | right; left | right; right; exists e; split; [apply He|]]; reflexivity.
Qed.

(** The shape of every run: its colours, and how it can end. *)
Lemma run_effects h self vo d w :
  let r := Install.run h self vo d w in
  colors (snd r) = colors w
  /\ match fst r with
     | Ok code => code = 0%Z \/ code = 1%Z
     | Raise e => is_Exception e = true
     end.
Proof.
  cbn zeta. destruct (version_cases h) as [B | N].
  - destruct (run_below_minimum h self vo d w B) as (lines & -> & _).
    cbn. auto.
  - destruct (run_after_check h self vo d w N) as (lines & ->).
    assert (C0 : colors (after_printing w lines) = colors w) by reflexivity.
    revert C0. generalize (after_printing w lines) as w0. intros w0 C0.
    destruct (phase_cases (if negb d then Install.create_venv h self false else ret true) w0)
      as (w1 & S1 & [E1 | [E1 | (e & He & E1)]]).
    { destruct d; cbn [negb]; [discriminate|].
      apply (create_venv_effects h self false w0). }
    all: assert (C1 : colors w1 = colors w)
      by (rewrite <- S1, <- C0; destruct d; cbn [negb];
          [reflexivity | apply (create_venv_effects h self false w0)]).
    + rewrite (bind_ok _ _ _ _ _ E1). cbn [negb].
      destruct (phase_cases
                  (if negb vo then Install.install_dependencies h self else ret true) w1)
        as (w2 & S2 & [E2 | [E2 | (e & He & E2)]]).
      { destruct vo; cbn [negb]; [discriminate|].
        apply (install_dependencies_effects h self w1). }
      all: assert (C2 : colors w2 = colors w)
        by (rewrite <- S2, <- C1; destruct vo; cbn [negb];
            [reflexivity | apply (install_dependencies_effects h self w1)]).
      * rewrite (bind_ok _ _ _ _ _ E2). cbn [negb].
        destruct (print_next_steps_effects h self w2) as (w3 & E3 & _ & _ & C3 & _).
        rewrite (bind_ok _ _ _ _ _ E3). unfold ret. cbn [fst snd].
        split; [congruence | auto].
      * rewrite (bind_ok _ _ _ _ _ E2). cbn [negb]. unfold ret. cbn [fst snd]. auto.
      * rewrite (bind_raise _ _ _ _ _ E2). cbn [fst snd]. auto.
    + rewrite (bind_ok _ _ _ _ _ E1). cbn [negb]. unfold ret. cbn [fst snd]. auto.
    + rewrite (bind_raise _ _ _ _ _ E1). cbn [fst snd]. auto.
Qed.

Lemma fresh_install_without_manifest_witness :
  let h := demo_host 3 11 2 in
  let r := Install.run h (Install.attributes h) false false (demo_world [] []) in
  fst r = Ok 0%Z /\ fs (snd r) = [demo_venv].
Proof.
  cbn zeta.
  assert (N : ~ below_minimum (demo_host 3 11 2)) by (unfold below_minimum; cbn; lia).
  pose proof (fresh_install_without_manifest (demo_host 3 11 2)
                (Install.attributes (demo_host 3 11 2)) (demo_world [] [])
                "" [demo_venv] "" [demo_venv] N eq_refl eq_refl eq_refl eq_refl eq_refl) as T.
  split; [exact (proj1 T) | exact (proj1 (proj2 T))].
Defined.

(** X2. Forced recreation of an existing environment removes the directory
    and runs the creation command without asking: no prompt is shown and
    the operator's pending input is left as it was. *)
Theorem forced_recreation_never_asks h self w :
  path_exists (fs w) (Install.venv_path self) = true ->
  let r := Install.create_venv h self true w in
  let venv := Install.venv_path self in
  stdin (snd r) = stdin w
  /\ prompts (trace (snd r)) = prompts (trace w)
  /\ side_effects (trace (snd r))
     = (side_effects (trace w) ++ [Rmtree venv; Run (Install.venv_command h self)])%list
  /\ fs (snd r) = snd (exec h (Install.venv_command h self) (fs_rmtree (fs w) venv)).
Proof.
  intros Hex. cbn zeta. exec_core. cbn. rewrite Hex. cbn.
  destruct (exec h _ _) as [[rc out |] f1]; cbn; [destruct (rc =? 0)%Z; cbn|];
    settle; rewrite <- ?app_assoc; repeat split.
Qed.

Lemma forced_recreation_never_asks_witness :
  let h := demo_host 3 11 2 in
  stdin (snd (Install.create_venv h (Install.attributes h) true
                (demo_world [demo_venv] ["y"]))) = ["y"].
Proof.
  cbn zeta.
  exact (proj1 (forced_recreation_never_asks (demo_host 3 11 2)
                  (Install.attributes (demo_host 3 11 2))
                  (demo_world [demo_venv] ["y"]) eq_refl)).
Defined.

(** The creation phase on a world without the directory, in one equation. *)
Lemma create_venv_fresh_spec h self force w :
  path_exists (fs w) (Install.venv_path self) = false ->
  exists w0, w0 = after_printing w [PyStr.nl ++ BLUE (colors w)
                                    ++ "Creating virtual environment..."
                                    ++ NC (colors w) ++ PyStr.nl]
  /\ Install.create_venv h self force w
     = let cmd := Install.venv_command h self in
       match exec h cmd (fs w) with
       | (Exited rc out, f1) =>
           if (rc =? 0)%Z
           then (Ok true,
                 mkWorld f1 (stdin w) (colors w)
                   (trace w0 ++ [Run cmd;
                                 Print (status_line (colors w)
                                          ("Virtual environment created at "
                                           ++ path_str h (Install.venv_path self)))]))
           else (Ok false,
                 mkWorld f1 (stdin w) (colors w)
                   (trace w0 ++ [Run cmd;
                                 Print (error_line (colors w)
                                          ("Failed to create virtual environment: "
                                           ++ exc_text h (CalledProcessError cmd rc)))]))
       | (NotStarted, f1) =>
           (Raise (OSError cmd), mkWorld f1 (stdin w) (colors w) (trace w0 ++ [Run cmd]))
       end.
Proof.
  intros Habs. eexists. split; [reflexivity|].
  rewrite create_venv_fresh by exact Habs. rewrite create_venv_try_spec. reflexivity.
Qed.

(** X3. When the creation command exits with a non-zero status, the phase
    reports failure and the run ends with 1 right there: the creation
    command is the only command run, and the last line printed is the
    error carrying the exception's text. *)
Theorem creation_failure_ends_run h self vo w rc o f1 :
  ~ below_minimum h ->
  path_exists (fs w) (Install.venv_path self) = false ->
  exec h (Install.venv_command h self) (fs w) = (Exited rc o, f1) ->
  rc <> 0%Z ->
  let r := Install.run h self vo false w in
  fst r = Ok 1%Z
  /\ commands (trace (snd r)) = (commands (trace w) ++ [Install.venv_command h self])%list
  /\ last (printed (trace (snd r))) ""
     = error_line (colors w)
         ("Failed to create virtual environment: "
          ++ exc_text h (CalledProcessError (Install.venv_command h self) rc)).
Proof.
  intros N Habs Hc Hrc.
  assert (E : exists wf,
             Install.run h self vo false w = (Ok 1%Z, wf)
             /\ commands (trace wf)
                = (commands (trace w) ++ [Install.venv_command h self])%list
             /\ last (printed (trace wf)) ""
                = error_line (colors w)
                    ("Failed to create virtual environment: "
                     ++ exc_text h (CalledProcessError (Install.venv_command h self) rc))).
  { destruct (run_after_check h self vo false w N) as (lines & ->).
    cbn [negb].
    destruct (create_venv_fresh_spec h self false (after_printing w lines) Habs)
      as (w0 & -> & E1).
    cbn [fs after_printing] in E1. cbn zeta in E1. rewrite Hc in E1.
    apply Z.eqb_neq in Hrc. rewrite Hrc in E1.
    rewrite (bind_ok _ _ _ _ _ E1). cbn [negb]. unfold ret.
    eexists. split; [reflexivity|]. settle. split; [reflexivity|].
    rewrite ?app_assoc. apply last_last. }
  destruct E as (wf & -> & ? & ?). cbn [fst snd]. auto.
Qed.

Lemma creation_failure_ends_run_witness :
  fst (Install.run failing_host (Install.attributes failing_host) false false
         (demo_world [] [])) = Ok 1%Z.
Proof.
  assert (N : ~ below_minimum failing_host) by (unfold below_minimum; cbn; lia).
  assert (R : 1%Z <> 0%Z) by discriminate.
  exact (proj1 (creation_failure_ends_run failing_host (Install.attributes failing_host)
                  false (demo_world [] []) 1%Z "" [] N eq_refl eq_refl R)).
Defined.

(** X4. When the creation command cannot be started at all, the exception
    is not caught by the phase: it escapes from the run, nothing after the
    command is executed, and the CLI process ends with status 1. *)
Theorem unstartable_creation_escapes h vo w f1 :
  ~ below_minimum h ->
  path_exists (fs w) (Install.venv_path (Install.attributes h)) = false ->
  exec h (Install.venv_command h (Install.attributes h)) (fs w) = (NotStarted, f1) ->
  let self := Install.attributes h in
  let r := Install.run h self vo false w in
  fst r = Raise (OSError (Install.venv_command h self))
  /\ last (trace (snd r)) (Print "") = Run (Install.venv_command h self)
  /\ fst (Install.script h (Install.mkNamespace vo false) w) = 1%Z.
Proof.
  intros N Habs Hc. cbn zeta.
  assert (E : forall c, exists wf,
             Install.run h (Install.attributes h) vo false
               (mkWorld (fs w) (stdin w) c (trace w))
             = (Raise (OSError (Install.venv_command h (Install.attributes h))), wf)
             /\ last (trace wf) (Print "")
                = Run (Install.venv_command h (Install.attributes h))).
  { intros c.
    destruct (run_after_check h (Install.attributes h) vo false
                (mkWorld (fs w) (stdin w) c (trace w)) N) as (lines & ->).
    cbn [negb].
    destruct (create_venv_fresh_spec h (Install.attributes h) false
                (after_printing (mkWorld (fs w) (stdin w) c (trace w)) lines) Habs)
      as (w0 & -> & E1).
    cbn [fs after_printing] in E1. cbn zeta in E1. rewrite Hc in E1.
    rewrite (bind_raise _ _ _ _ _ E1).
    eexists. split; [reflexivity|]. cbn [trace]. apply last_last. }
  split; [|split].
  - destruct (E (colors w)) as (wf & E1 & _). destruct w; cbn in E1 |- *. rewrite E1.
    reflexivity.
  - destruct (E (colors w)) as (wf & E1 & L). destruct w; cbn in E1 |- *. rewrite E1.
    exact L.
  - unfold Install.script, Install.main. cbn [Install.venv_only Install.deps_only].
    rewrite andb_false_r.
    destruct (constructor_spec h w) as (c & Ec & _).
    rewrite (bind_ok _ _ _ _ _ Ec).
    destruct (E c) as (wf & -> & _). reflexivity.
Qed.

Lemma unstartable_creation_escapes_witness :
  fst (Install.script unstartable_host (Install.mkNamespace false false)
         (demo_world [] [])) = 1%Z.
Proof.
  assert (N : ~ below_minimum unstartable_host) by (unfold below_minimum; cbn; lia).
  exact (proj2 (proj2 (unstartable_creation_escapes unstartable_host false
                         (demo_world [] []) [] N eq_refl eq_refl))).
Defined.

(** X5. When the directory exists, recreation is not forced and the
    operator's input is exhausted, the prompt raises EOFError out of the
    phase: the directory is not touched, no command is run, and the CLI
    process ends with status 1. *)
Theorem prompt_without_input_escapes h vo w :
  ~ below_minimum h ->
  path_exists (fs w) (Install.venv_path (Install.attributes h)) = true ->
  stdin w = [] ->
  let self := Install.attributes h in
  let r := Install.create_venv h self false w in
  fst r = Raise EOFError
  /\ fs (snd r) = fs w
  /\ side_effects (trace (snd r)) = side_effects (trace w)
  /\ prompts (trace (snd r))
     = (prompts (trace w) ++ ["Do you want to recreate it? (y/N): "])%list
  /\ fst (Install.script h (Install.mkNamespace vo false) w) = 1%Z.
Proof.
  intros N Hex Hin. cbn zeta.
  assert (E : forall w0, fs w0 = fs w -> stdin w0 = [] ->
             exists wf, Install.create_venv h (Install.attributes h) false w0
                        = (Raise EOFError, wf)
                        /\ fs wf = fs w0
                        /\ side_effects (trace wf) = side_effects (trace w0)
                        /\ prompts (trace wf)
                           = (prompts (trace w0)
                              ++ ["Do you want to recreate it? (y/N): "])%list).
  { intros w0 F0 S0. exec_core. cbn. rewrite F0, Hex. cbn. rewrite S0. cbn.
    eexists. split; [reflexivity|]. settle. repeat split. }
  destruct (E w eq_refl Hin) as (wf & E1 & F1 & T1 & P1).
  rewrite E1. cbn [fst snd]. repeat split; auto.
  unfold Install.script, Install.main. cbn [Install.venv_only Install.deps_only].
  rewrite andb_false_r.
  destruct (constructor_spec h w) as (c & Ec & _).
  rewrite (bind_ok _ _ _ _ _ Ec).
  destruct (run_after_check h (Install.attributes h) vo false
              (mkWorld (fs w) (stdin w) c (trace w)) N) as (lines & ->).
  cbn [negb].
  destruct (E (after_printing (mkWorld (fs w) (stdin w) c (trace w)) lines)
              eq_refl Hin) as (wf2 & E2 & _).
  rewrite (bind_raise _ _ _ _ _ E2). reflexivity.
Qed.

Lemma prompt_without_input_escapes_witness :
  fst (Install.script (demo_host 3 11 2) (Install.mkNamespace false false)
         (demo_world [demo_venv] [])) = 1%Z.
Proof.
  assert (N : ~ below_minimum (demo_host 3 11 2)) by (unfold below_minimum; cbn; lia).
  exact (proj2 (proj2 (proj2 (proj2
           (prompt_without_input_escapes (demo_host 3 11 2) false
              (demo_world [demo_venv] []) N eq_refl eq_refl))))).
Defined.

(** X6. When the package-installer upgrade exits with a non-zero status,
    the dependency phase returns failure: the upgrade is the only command
    it runs, the manifest is not even looked for, and the last line is the
    error carrying the exception's text. *)
Theorem upgrade_failure_fails_phase h self w rc o f1 :
  path_exists (fs w) (Install.venv_path self) = true ->
  exec h (Install.pip_upgrade_command h self) (fs w) = (Exited rc o, f1) ->
  rc <> 0%Z ->
  let r := Install.install_dependencies h self w in
  fst r = Ok false
  /\ commands (trace (snd r))
     = (commands (trace w) ++ [Install.pip_upgrade_command h self])%list
  /\ last (printed (trace (snd r))) ""
     = error_line (colors w)
         ("Dependency installation failed: "
          ++ exc_text h (CalledProcessError (Install.pip_upgrade_command h self) rc)).
Proof.
  intros Hex Hup Hrc. apply Z.eqb_neq in Hrc. cbn zeta.
  exec_core. cbn. rewrite Hex. cbn. rewrite Hup. cbn. rewrite Hrc. cbn.
  settle. repeat split. rewrite ?app_assoc. apply last_last.
Qed.

Lemma upgrade_failure_fails_phase_witness :
  fst (Install.install_dependencies failing_host (Install.attributes failing_host)
         (demo_world [demo_venv] [])) = Ok false.
Proof.
  assert (R : 1%Z <> 0%Z) by discriminate.
  exact (proj1 (upgrade_failure_fails_phase failing_host
                  (Install.attributes failing_host) (demo_world [demo_venv] [])
                  1%Z "" [demo_venv] eq_refl eq_refl R)).
Defined.

(** X7. When the manifest install exits with a non-zero status, the
    dependency phase returns failure and the GitPython probe is never run:
    the commands are the upgrade and the install, nothing more. *)
Theorem install_failure_skips_probe h self w o1 f1 rc o2 f2 :
  path_exists (fs w) (Install.venv_path self) = true ->
  exec h (Install.pip_upgrade_command h self) (fs w) = (Exited 0 o1, f1) ->
  path_exists f1 (Install.requirements_file self) = true ->
  exec h (Install.pip_install_command h self) f1 = (Exited rc o2, f2) ->
  rc <> 0%Z ->
  let r := Install.install_dependencies h self w in
  fst r = Ok false
  /\ commands (trace (snd r))
     = (commands (trace w)
        ++ [Install.pip_upgrade_command h self; Install.pip_install_command h self])%list
  /\ last (printed (trace (snd r))) ""
     = error_line (colors w)
         ("Dependency installation failed: "
          ++ exc_text h (CalledProcessError (Install.pip_install_command h self) rc)).
Proof.
  intros Hex Hup Hman Hinst Hrc. apply Z.eqb_neq in Hrc. cbn zeta.
  exec_core. cbn. rewrite Hex. cbn. rewrite Hup. cbn. rewrite Hman. cbn.
  rewrite Hinst. cbn. rewrite Hrc. cbn.
  settle. rewrite <- ?app_assoc. repeat split. rewrite ?app_assoc. apply last_last.
Qed.

Lemma install_failure_skips_probe_witness :
  fst (Install.install_dependencies broken_manifest_host
         (Install.attributes broken_manifest_host)
         (demo_world [demo_venv; ["srv"; "coditect"; "requirements.txt"]] []))
  = Ok false.
Proof.
  assert (R : 1%Z <> 0%Z) by discriminate.
  exact (proj1 (install_failure_skips_probe broken_manifest_host
                  (Install.attributes broken_manifest_host)
                  (demo_world [demo_venv; ["srv"; "coditect"; "requirements.txt"]] [])
                  "" _ 1%Z "" _ eq_refl eq_refl eq_refl eq_refl R)).
Defined.

(** X8. Environment-only mode never runs a package-installer command:
    whatever the environment does, the only command a run can execute is
    the environment-creation command, at most once. *)
Theorem environment_only_runs_no_installer h self w :
  let r := Install.run h self true false w in
  commands (trace (snd r)) = commands (trace w)
  \/ commands (trace (snd r)) = (commands (trace w) ++ [Install.venv_command h self])%list.
Proof.
  cbn zeta. destruct (version_cases h) as [B | N].
  - destruct (run_below_minimum h self true false w B) as (lines & -> & _).
    left. apply after_printing_quiet.
  - destruct (run_after_check h self true false w N) as (lines & ->).
    cbn [negb].
    assert (C0 : commands (trace (after_printing w lines)) = commands (trace w))
      by apply after_printing_quiet.
    revert C0. generalize (after_printing w lines) as w0. intros w0 C0.
    destruct (create_venv_effects h self false w0) as (Hc & _ & He).
    rewrite C0 in Hc.
    destruct (phase_cases (Install.create_venv h self false) w0 He)
      as (w1 & S1 & [E1 | [E1 | (e & _ & E1)]]); rewrite S1 in Hc.
    + rewrite (bind_ok _ _ _ _ _ E1). cbn [negb].
      rewrite (bind_ok _ _ _ true w1) by reflexivity. cbn [negb].
      destruct (print_next_steps_effects h self w1) as (w3 & E3 & _ & _ & _ & C3 & _).
      rewrite (bind_ok _ _ _ _ _ E3). unfold ret. cbn [snd]. rewrite C3. exact Hc.
    + rewrite (bind_ok _ _ _ _ _ E1). cbn [negb]. unfold ret. cbn [snd]. exact Hc.
    + rewrite (bind_raise _ _ _ _ _ E1). cbn [snd]. exact Hc.
Qed.

(** X9. Dependencies-only mode never touches the environment directory and
    never asks: whatever the environment does, a run removes nothing,
    shows no prompt, leaves the pending input alone, and the commands it
    runs are a prefix of upgrade, manifest install, probe; the creation
    command is not among them. *)
Theorem dependencies_only_leaves_environment h self w :
  let r := Install.run h self false true w in
  let up := Install.pip_upgrade_command h self in
  let inst := Install.pip_install_command h self in
  let probe := Install.gitpython_probe_command h self in
  removals (trace (snd r)) = removals (trace w)
  /\ prompts (trace (snd r)) = prompts (trace w)
  /\ stdin (snd r) = stdin w
  /\ exists cmds,
       commands (trace (snd r)) = (commands (trace w) ++ cmds)%list
       /\ (cmds = [] \/ cmds = [up] \/ cmds = [up; inst] \/ cmds = [up; inst; probe])
       /\ ~ In (Install.venv_command h self) cmds.
Proof.
  cbn zeta.
  assert (D : forall cmds,
             cmds = [] \/ cmds = [Install.pip_upgrade_command h self]
             \/ cmds = [Install.pip_upgrade_command h self;
                        Install.pip_install_command h self]
             \/ cmds = [Install.pip_upgrade_command h self;
                        Install.pip_install_command h self;
                        Install.gitpython_probe_command h self] ->
             ~ In (Install.venv_command h self) cmds).
  { unfold Install.venv_command, Install.pip_upgrade_command,
      Install.pip_install_command, Install.gitpython_probe_command.
    intros cmds [-> | [-> | [-> | ->]]] F; cbn in F;
      decompose [or] F; try discriminate; try contradiction. }
  assert (E : exists wf res,
             Install.run h self false true w = (res, wf)
             /\ removals (trace wf) = removals (trace w)
             /\ prompts (trace wf) = prompts (trace w)
             /\ stdin wf = stdin w
             /\ exists cmds,
                  commands (trace wf) = (commands (trace w) ++ cmds)%list
                  /\ (cmds = [] \/ cmds = [Install.pip_upgrade_command h self]
                      \/ cmds = [Install.pip_upgrade_command h self;
                                 Install.pip_install_command h self]
                      \/ cmds = [Install.pip_upgrade_command h self;
                                 Install.pip_install_command h self;
                                 Install.gitpython_probe_command h self])).
  { destruct (version_cases h) as [B | N].
    - destruct (run_below_minimum h self false true w B) as (lines & -> & _).
      do 2 eexists. split; [reflexivity|]. settle. repeat split.
      exists []. rewrite app_nil_r. auto.
    - destruct (run_after_check h self false true w N) as (lines & ->).
      cbn [negb]. rewrite (bind_ok _ _ _ true (after_printing w lines)) by reflexivity.
      cbn [negb].
      assert (T0 : removals (trace (after_printing w lines)) = removals (trace w)
                   /\ prompts (trace (after_printing w lines)) = prompts (trace w)
                   /\ stdin (after_printing w lines) = stdin w
                   /\ commands (trace (after_printing w lines)) = commands (trace w))
        by (settle; repeat split).
      revert T0. generalize (after_printing w lines) as w0.
      intros w0 (R0 & P0 & S0 & C0).
      destruct (install_dependencies_effects h self w0)
        as ((cmds & Hc & Hk) & Hr & Hp & Hs & _ & He).
      rewrite C0 in Hc. rewrite R0 in Hr. rewrite P0 in Hp. rewrite S0 in Hs.
      destruct (phase_cases (Install.install_dependencies h self) w0 He)
        as (w1 & S1 & [E1 | [E1 | (e & _ & E1)]]); rewrite S1 in Hc, Hr, Hp, Hs.
      + rewrite (bind_ok _ _ _ _ _ E1). cbn [negb].
        destruct (print_next_steps_effects h self w1)
          as (w3 & E3 & _ & S3 & _ & C3 & _ & R3 & P3).
        rewrite (bind_ok _ _ _ _ _ E3). unfold ret.
        do 2 eexists. split; [reflexivity|].
        rewrite R3, P3, S3, C3. repeat split; auto. exists cmds. auto.
      + rewrite (bind_ok _ _ _ _ _ E1). cbn [negb]. unfold ret.
        do 2 eexists. split; [reflexivity|]. repeat split; auto. exists cmds. auto.
      + rewrite (bind_raise _ _ _ _ _ E1).
        do 2 eexists. split; [reflexivity|]. repeat split; auto. exists cmds. auto. }
  destruct E as (wf & res & -> & Hr & Hp & Hs & cmds & Hc & Hk). cbn [snd].
  repeat split; auto. exists cmds. auto.
Qed.

(** X10. The CLI process always ends with status 0 or 1, whatever the
    flags and whatever the environment does; status 0 is only possible
    with at most one mode flag and an interpreter that is recent enough. *)
Theorem cli_exit_status h args w :
  let code := fst (Install.script h args w) in
  (code = 0%Z \/ code = 1%Z)
  /\ (code = 0%Z ->
      ~ below_minimum h
      /\ Install.venv_only args && Install.deps_only args = false).
Proof.
  cbn zeta. unfold Install.script, Install.main.
  destruct (Install.venv_only args && Install.deps_only args) eqn:Both.
  - cbn. split; [auto | discriminate].
  - destruct (constructor_spec h w) as (c & Ec & _).
    rewrite (bind_ok _ _ _ _ _ Ec).
    pose proof (run_effects h (Install.attributes h) (Install.venv_only args)
                  (Install.deps_only args) (mkWorld (fs w) (stdin w) c (trace w)))
      as (_ & K).
    destruct (version_cases h) as [B | N].
    + destruct (run_below_minimum h (Install.attributes h) (Install.venv_only args)
                  (Install.deps_only args) (mkWorld (fs w) (stdin w) c (trace w)) B)
        as (lines & -> & _).
      cbn. split; [auto | discriminate].
    + destruct (Install.run h (Install.attributes h) _ _ _) as [[code | e] wf];
        cbn [fst snd exit_status] in *.
      * split; [exact K | auto].
      * destruct e; cbn in K; try discriminate; cbn; split; auto; discriminate.
Qed.

(** The constructor blanks the colours on a Windows console without ANSI
    support, and only there. *)
Lemma constructor_colors h w :
  Install.CrossPlatformInstaller h w
  = (Ok (Install.attributes h),
     mkWorld (fs w) (stdin w)
       (if String.eqb (system h) "Windows"
           && negb (match ANSICON h with Some v => PyStr.truthy v | None => false end)
        then Colors_blank else colors w)
       (trace w)).
Proof.
  unfold Install.CrossPlatformInstaller, Install.disable_on_windows, bind, ret, set_colors.
  unfold Install.attributes at 1. cbn [Install.os_type].
  destruct w as [f s c t]; cbn [fs stdin colors trace].
  destruct (String.eqb (system h) "Windows"); cbn [andb]; [|reflexivity].
  destruct (negb _); reflexivity.
Qed.

(** X11. Colours are switched off exactly on a Windows console without
    ANSI support: after the CLI has run with at most one mode flag, the
    colour table is blank if the OS is Windows and ANSICON is unset or
    empty, and otherwise is the table the process started with; no phase
    of the run changes it. *)
Theorem colours_after_cli h args w :
  Install.venv_only args && Install.deps_only args = false ->
  colors (snd (Install.script h args w))
  = if String.eqb (system h) "Windows"
       && negb (match ANSICON h with Some v => PyStr.truthy v | None => false end)
    then Colors_blank else colors w.
Proof.
  intros Both. unfold Install.script, Install.main. rewrite Both.
  rewrite (bind_ok _ _ _ _ _ (constructor_colors h w)).
  match goal with
  | |- context [Install.run h ?s ?vo ?d ?w0] =>
      pose proof (run_effects h s vo d w0) as (C & _);
      destruct (Install.run h s vo d w0) as [r wf]
  end.
  cbn [fst snd colors] in *. exact C.
Qed.

Lemma colours_after_cli_witness :
  colors (snd (Install.script (windows_host None) (Install.mkNamespace true false)
                 (demo_world [] []))) = Colors_blank
  /\ colors (snd (Install.script (windows_host (Some "1")) (Install.mkNamespace true false)
                    (demo_world [] []))) = Colors_class.
Proof.
  split.
  - exact (colours_after_cli (windows_host None) (Install.mkNamespace true false)
             (demo_world [] []) eq_refl).
  - exact (colours_after_cli (windows_host (Some "1")) (Install.mkNamespace true false)
             (demo_world [] []) eq_refl).
Defined.

Lemma cli_exit_status_witness : ~ below_minimum (demo_host 3 11 2).
Proof.
  exact (proj1 (proj2 (cli_exit_status (demo_host 3 11 2)
                         (Install.mkNamespace true false) (demo_world [] [])) eq_refl)).
Defined.

(** * Further properties of the launcher *)

Lemma print_banner_spec w :
  Launch.print_banner w = (Ok tt, after_printing w banner_lines).
Proof.
  unfold Launch.print_banner, bind, print, emit, after_printing, banner_lines. cbn.
  repeat rewrite <- app_assoc. reflexivity.
Qed.

(** [launch_cli] always leaves through [sys.exit], with the run's code, or
    with 1 when an exception escaped the run. *)
Lemma launch_cli_exits h vo d w :
  exists w',
    Launch.launch_cli h vo d w
    = (Raise (SystemExit
                (exit_status (fst (Install.run h (Install.attributes h) vo d
                                     (cli_start h w))))), w')
    /\ fs w' = fs (snd (Install.run h (Install.attributes h) vo d (cli_start h w)))
    /\ side_effects (trace w')
       = side_effects (trace (snd (Install.run h (Install.attributes h) vo d
                                     (cli_start h w)))).
Proof.
  unfold Launch.launch_cli.
  rewrite (bind_ok _ _ _ tt (after_printing w ["Launching CLI installer..."]))
    by reflexivity.
  unfold try_except.
  rewrite (bind_ok _ _ _ _ _
             (constructor_colors h (after_printing w ["Launching CLI installer..."]))).
  change (mkWorld (fs (after_printing w ["Launching CLI installer..."])) _ _ _)
    with (cli_start h w).
  destruct (Install.run h (Install.attributes h) vo d (cli_start h w))
    as [[code | e] wf] eqn:R.
  - rewrite (bind_ok _ _ _ _ _ R). unfold raise. cbn. eexists. repeat split.
  - rewrite (bind_raise _ _ _ _ _ R).
    destruct e; cbn; eexists; (split; [reflexivity|]); settle; repeat split.
Qed.

(** X12. A mode flag without --cli is a usage error: the launcher ends
    with status 1 having printed one line, before the banner and before
    any installer or GUI work, whatever the GUI flag. *)
Theorem launcher_mode_flags_need_cli h gui_main g vo d w :
  vo || d = true ->
  Launch.script h gui_main (Launch.mkCommandLine g false vo d) w
  = (1%Z, after_printing w ["Error: --venv-only and --deps-only require --cli mode"]).
Proof.
  intros F.
  assert (E : Launch.main h gui_main (Launch.mkCommandLine g false vo d) w
              = (Ok 1%Z,
                 after_printing w
                   ["Error: --venv-only and --deps-only require --cli mode"])).
  { unfold Launch.main, Launch.parse_args.
    cbn [Launch.with_gui Launch.with_cli Launch.with_venv_only Launch.with_deps_only].
    rewrite andb_false_r.
    rewrite (bind_ok _ _ _ (Launch.mkNamespace g false vo d) w) by reflexivity.
    cbn [Launch.venv_only Launch.deps_only Launch.cli Launch.gui negb].
    rewrite F. reflexivity. }
  unfold Launch.script, try_except. rewrite (bind_ok _ _ _ _ _ E). reflexivity.
Qed.

Lemma launcher_mode_flags_need_cli_witness :
  fst (Launch.script (demo_host 3 11 2) (ret tt)
         (Launch.mkCommandLine false false true false) (demo_world [] [])) = 1%Z.
Proof.
  exact (f_equal fst (launcher_mode_flags_need_cli (demo_host 3 11 2) (ret tt)
                        false true false (demo_world [] []) eq_refl)).
Defined.

(** A command line the parser accepts, past the two usage checks: [main]
    prints the banner and dispatches. *)
Lemma main_after_banner h gui_main g c vo d w :
  g && c = false ->
  (vo || d) && negb c = false ->
  vo && d = false ->
  Launch.main h gui_main (Launch.mkCommandLine g c vo d) w
  = (if g then
       available <- Launch.check_gui_available h;;
       if negb available then
         print "Error: GUI mode requested but tkinter not available";;
         print (PyStr.nl ++ "Install tkinter:");;
         print "  Ubuntu/Debian: sudo apt-get install python3-tk";;
         print "  Fedora: sudo dnf install python3-tkinter";;
         print "  macOS: tkinter should be included with Python";;
         print "  Windows: tkinter should be included with Python";;
         ret 1%Z
       else Launch.launch_gui h gui_main;; ret 0%Z
     else if c then
       Launch.launch_cli h vo d;; ret 0%Z
     else
       available <- Launch.check_gui_available h;;
       (if available then
          print "✓ GUI available - launching graphical installer";;
          print "  (Use --cli flag to force command-line mode)";;
          print "";;
          Launch.launch_gui h gui_main
        else
          print "ℹ GUI not available - launching command-line installer";;
          print "  (Install tkinter for graphical installer)";;
          print "";;
          Launch.launch_cli h false false);;
       ret 0%Z)
      (after_printing w banner_lines).
Proof.
  intros F0 F1 F2. unfold Launch.main, Launch.parse_args.
  cbn [Launch.with_gui Launch.with_cli Launch.with_venv_only Launch.with_deps_only].
  rewrite F0.
  rewrite (bind_ok _ _ _ (Launch.mkNamespace g c vo d) w) by reflexivity.
  cbn [Launch.venv_only Launch.deps_only Launch.cli Launch.gui].
  rewrite F1, F2.
  rewrite (bind_ok _ _ _ _ _ (print_banner_spec w)). reflexivity.
Qed.

Lemma script_of_main_ok h gui_main args w code w' :
  Launch.main h gui_main args w = (Ok code, w') ->
  Launch.script h gui_main args w = (code, w').
Proof.
  intros E. unfold Launch.script, try_except.
  rewrite (bind_ok _ _ _ _ _ E). reflexivity.
Qed.

Lemma script_of_main_exit h gui_main args w code w' :
  Launch.main h gui_main args w = (Raise (SystemExit code), w') ->
  Launch.script h gui_main args w = (code, w').
Proof.
  intros E. unfold Launch.script, try_except.
  rewrite (bind_raise _ _ _ _ _ E). reflexivity.
Qed.

(** X13. Forcing the GUI where tkinter cannot be imported ends the
    launcher with status 1 after the banner and the installation hints;
    nothing else happens: no installer object, no command, no GUI. *)
Theorem forced_gui_without_toolkit h gui_main w :
  tkinter h = false ->
  Launch.script h gui_main (Launch.mkCommandLine true false false false) w
  = (1%Z,
     after_printing w
       (banner_lines
        ++ ["Error: GUI mode requested but tkinter not available";
            PyStr.nl ++ "Install tkinter:";
            "  Ubuntu/Debian: sudo apt-get install python3-tk";
            "  Fedora: sudo dnf install python3-tkinter";
            "  macOS: tkinter should be included with Python";
            "  Windows: tkinter should be included with Python"])).
Proof.
  intros T. apply script_of_main_ok.
  rewrite main_after_banner by reflexivity.
  cbn [Launch.gui]. unfold Launch.check_gui_available. rewrite T.
  unfold bind, ret, print, emit, after_printing, banner_lines. cbn.
  repeat rewrite <- app_assoc. reflexivity.
Qed.

Lemma forced_gui_without_toolkit_witness :
  fst (Launch.script (windows_host None) (ret tt)
         (Launch.mkCommandLine true false false false) (demo_world [] [])) = 1%Z.
Proof.
  exact (f_equal fst (forced_gui_without_toolkit (windows_host None) (ret tt)
                        (demo_world [] []) eq_refl)).
Defined.

(** X14. Where tkinter cannot be imported, or when CLI mode is forced, the
    GUI is never entered: the launcher's result does not depend on what
    the GUI session would do. *)
Theorem gui_not_entered h gui_main gui_main' argv w :
  tkinter h = false
  \/ (Launch.with_cli argv = true /\ Launch.with_gui argv = false) ->
  Launch.script h gui_main argv w = Launch.script h gui_main' argv w.
Proof.
  intros H. unfold Launch.script. f_equal.
  unfold try_except.
  assert (E : Launch.main h gui_main argv w = Launch.main h gui_main' argv w).
  { destruct argv as [g c vo d].
    cbn [Launch.with_gui Launch.with_cli] in H.
    unfold Launch.main, Launch.parse_args.
    cbn [Launch.with_gui Launch.with_cli Launch.with_venv_only Launch.with_deps_only].
    destruct (g && c) eqn:GC; [reflexivity|].
    rewrite !(bind_ok _ _ _ (Launch.mkNamespace g c vo d) w) by reflexivity.
    cbn [Launch.venv_only Launch.deps_only Launch.cli Launch.gui].
    destruct ((vo || d) && negb c); [reflexivity|].
    destruct (vo && d); [reflexivity|].
    rewrite !(bind_ok _ _ _ _ _ (print_banner_spec w)).
    destruct H as [T | [C G]].
    - unfold Launch.check_gui_available. rewrite T.
      destruct g.
      + rewrite !(bind_ok _ _ _ false (after_printing w banner_lines)) by reflexivity.
        reflexivity.
      + destruct c; [reflexivity|].
        rewrite !(bind_ok _ _ _ false (after_printing w banner_lines)) by reflexivity.
        reflexivity.
    - rewrite C, G. reflexivity. }
  unfold bind. rewrite E. reflexivity.
Qed.

Lemma gui_not_entered_witness :
  Launch.script (windows_host None) (ret tt)
    (Launch.mkCommandLine false false false false) (demo_world [] [])
  = Launch.script (windows_host None) (raise EOFError)
      (Launch.mkCommandLine false false false false) (demo_world [] []).
Proof.
  exact (gui_not_entered (windows_host None) (ret tt) (raise EOFError)
           (Launch.mkCommandLine false false false false) (demo_world [] [])
           (or_introl eq_refl)).
Defined.

(** X15. In CLI mode the launcher ends with the status of the installer
    core's run (1 if an exception escaped it), and does to the filesystem
    and to processes exactly what that run does.  The run starts after the
    banner and one more line, with the colours the constructor leaves. *)
Theorem launcher_cli_exit_code h gui_main vo d w :
  vo && d = false ->
  let r := Install.run h (Install.attributes h) vo d
             (cli_start h (after_printing w banner_lines)) in
  let p := Launch.script h gui_main (Launch.mkCommandLine false true vo d) w in
  fst p = exit_status (fst r)
  /\ fs (snd p) = fs (snd r)
  /\ side_effects (trace (snd p)) = side_effects (trace (snd r)).
Proof.
  intros F. cbn zeta.
  destruct (launch_cli_exits h vo d (after_printing w banner_lines)) as (w' & E & Hf & Hs).
  erewrite script_of_main_exit.
  - cbn [fst snd]. split; [reflexivity|]. split; [exact Hf | exact Hs].
  - rewrite main_after_banner.
    + rewrite (bind_raise _ _ _ _ _ E). reflexivity.
    + reflexivity.
    + apply andb_false_r.
    + exact F.
Qed.

Lemma launcher_cli_exit_code_witness :
  fst (Launch.script (demo_host 3 11 2) (ret tt)
         (Launch.mkCommandLine false true true false) (demo_world [] [])) = 0%Z.
Proof.
  exact (proj1 (launcher_cli_exit_code (demo_host 3 11 2) (ret tt) true false
                  (demo_world [] []) eq_refl)).
Defined.

(** X16. With no flags and no tkinter the launcher performs a full
    command-line installation: it ends with the status of a run with both
    mode flags off, started after the banner and the notice lines. *)
Theorem auto_mode_without_toolkit h gui_main w :
  tkinter h = false ->
  let notice := ["ℹ GUI not available - launching command-line installer";
                 "  (Install tkinter for graphical installer)"; ""] in
  let r := Install.run h (Install.attributes h) false false
             (cli_start h (after_printing w (banner_lines ++ notice))) in
  let p := Launch.script h gui_main (Launch.mkCommandLine false false false false) w in
  fst p = exit_status (fst r)
  /\ fs (snd p) = fs (snd r)
  /\ side_effects (trace (snd p)) = side_effects (trace (snd r)).
Proof.
  intros T. cbn zeta.
  match goal with
  | |- context [cli_start h ?w0] =>
      destruct (launch_cli_exits h false false w0) as (w' & E & Hf & Hs)
  end.
  erewrite script_of_main_exit.
  - cbn [fst snd]. split; [reflexivity|]. split; [exact Hf | exact Hs].
  - rewrite main_after_banner by reflexivity.
    cbn [Launch.gui Launch.cli]. unfold Launch.check_gui_available. rewrite T.
    rewrite (bind_ok _ _ _ false (after_printing w banner_lines)) by reflexivity.
    cbn [negb]. apply bind_raise.
    rewrite (bind_ok _ _ _ _ _ (print_spec _ _)).
    rewrite (bind_ok _ _ _ _ _ (print_spec _ _)).
    rewrite (bind_ok _ _ _ _ _ (print_spec _ _)).
    rewrite !after_printing_more. repeat rewrite <- app_assoc. exact E.
Qed.

Lemma auto_mode_without_toolkit_witness :
  fst (Launch.script (windows_host None) (ret tt)
         (Launch.mkCommandLine false false false false) (demo_world [] [])) = 1%Z.
Proof.
  exact (eq_trans (proj1 (auto_mode_without_toolkit (windows_host None) (ret tt)
                            (demo_world [] []) eq_refl)) eq_refl).
Defined.

(** X17. When the GUI session fails with an exception, the launcher falls
    back to a full command-line installation and ends with that run's
    status; the run starts in the world the GUI left, after two lines
    announcing the fallback. *)
Theorem gui_failure_falls_back_to_cli h gui_main w e w2 :
  tkinter h = true ->
  gui_main (after_printing w (banner_lines ++ ["Launching GUI installer..."]))
  = (Raise e, w2) ->
  is_Exception e = true ->
  let r := Install.run h (Install.attributes h) false false
             (cli_start h
                (after_printing w2
                   ["Failed to launch GUI installer: " ++ exc_text h e;
                    PyStr.nl ++ "Falling back to CLI installer..."])) in
  let p := Launch.script h gui_main (Launch.mkCommandLine true false false false) w in
  fst p = exit_status (fst r)
  /\ fs (snd p) = fs (snd r)
  /\ side_effects (trace (snd p)) = side_effects (trace (snd r)).
Proof.
  intros T G Ex. cbn zeta.
  match goal with
  | |- context [cli_start h ?w0] =>
      destruct (launch_cli_exits h false false w0) as (w' & E & Hf & Hs)
  end.
  erewrite script_of_main_exit.
  - cbn [fst snd]. split; [reflexivity|]. split; [exact Hf | exact Hs].
  - rewrite main_after_banner by reflexivity.
    cbn [Launch.gui]. unfold Launch.check_gui_available. rewrite T.
    rewrite (bind_ok _ _ _ true (after_printing w banner_lines)) by reflexivity.
    cbn [negb]. apply bind_raise.
    unfold Launch.launch_gui.
    rewrite (bind_ok _ _ _ _ _ (print_spec _ _)). rewrite after_printing_more.
    unfold try_except, Launch.import_install_gui. rewrite T.
    rewrite (bind_ok _ _ _ tt
               (after_printing w (banner_lines ++ ["Launching GUI installer..."])))
      by reflexivity.
    rewrite G, Ex.
    rewrite (bind_ok _ _ _ _ _ (print_spec _ _)).
    rewrite (bind_ok _ _ _ _ _ (print_spec _ _)).
    rewrite !after_printing_more. exact E.
Qed.

Lemma gui_failure_falls_back_to_cli_witness :
  fst (Launch.script (demo_host 3 11 2) (raise EOFError)
         (Launch.mkCommandLine true false false false) (demo_world [] [])) = 0%Z.
Proof.
  exact (eq_trans (proj1 (gui_failure_falls_back_to_cli (demo_host 3 11 2)
                            (raise EOFError) (demo_world [] []) EOFError _
                            eq_refl eq_refl eq_refl)) eq_refl).
Defined.

(** X18. When the GUI session ends normally the launcher ends with
    status 0, and when the session leaves through [sys.exit] the launcher
    ends with that status; in both cases the world is the one the session
    left, and the command-line installer is not run. *)
Theorem gui_session_decides_status h gui_main w w2 :
  tkinter h = true ->
  (gui_main (after_printing w (banner_lines ++ ["Launching GUI installer..."]))
   = (Ok tt, w2) ->
   Launch.script h gui_main (Launch.mkCommandLine true false false false) w = (0%Z, w2))
  /\ (forall code,
        gui_main (after_printing w (banner_lines ++ ["Launching GUI installer..."]))
        = (Raise (SystemExit code), w2) ->
        Launch.script h gui_main (Launch.mkCommandLine true false false false) w = (code, w2)).
Proof.
  intros T.
  assert (P : forall r,
             gui_main (after_printing w (banner_lines ++ ["Launching GUI installer..."]))
             = (r, w2) ->
             (forall e, r = Raise e -> is_Exception e = false) ->
             Launch.launch_gui h gui_main (after_printing w banner_lines) = (r, w2)).
  { intros r G Hr. unfold Launch.launch_gui.
    rewrite (bind_ok _ _ _ _ _ (print_spec _ _)). rewrite after_printing_more.
    unfold try_except, Launch.import_install_gui. rewrite T.
    rewrite (bind_ok _ _ _ tt
               (after_printing w (banner_lines ++ ["Launching GUI installer..."])))
      by reflexivity.
    rewrite G. destruct r as [[] | e]; [reflexivity|].
    rewrite (Hr e eq_refl). reflexivity. }
  split.
  - intros G. apply script_of_main_ok.
    rewrite main_after_banner by reflexivity.
    cbn [Launch.gui]. unfold Launch.check_gui_available. rewrite T.
    rewrite (bind_ok _ _ _ true (after_printing w banner_lines)) by reflexivity.
    cbn [negb]. rewrite (bind_ok _ _ _ tt w2); [reflexivity|].
    apply (P (Ok tt) G). discriminate.
  - intros code G. apply script_of_main_exit.
    rewrite main_after_banner by reflexivity.
    cbn [Launch.gui]. unfold Launch.check_gui_available. rewrite T.
    rewrite (bind_ok _ _ _ true (after_printing w banner_lines)) by reflexivity.
    cbn [negb]. apply bind_raise.
    apply (P _ G). intros e [= <-]. reflexivity.
Qed.

Lemma gui_session_decides_status_witness :
  fst (Launch.script (demo_host 3 11 2) (ret tt)
         (Launch.mkCommandLine true false false false) (demo_world [] [])) = 0%Z.
Proof.
  exact (f_equal fst (proj1 (gui_session_decides_status (demo_host 3 11 2) (ret tt)
                               (demo_world [] []) _ eq_refl) eq_refl)).
Defined.

(** * Further properties of the GUI front-end *)

(** Every worker run ends with one final message, after intermediate ones. *)
Lemma worker_shape h w :
  exists pre x,
    worker_messages h w = (pre ++ [x])%list
    /\ Forall intermediate pre /\ ~ intermediate x.
Proof.
  assert (G : exists pre x,
             puts (trace (snd (InstallGui._run_installation h w)))
             = (puts (trace w) ++ pre ++ [x])%list
             /\ Forall intermediate pre /\ ~ intermediate x).
  { unfold InstallGui._run_installation, InstallGui.put, try_except.
    unfold bind at 1 2 3 4. unfold emit at 1 2 3 4. cbn.
    destruct (tuple_lt (version_info h) [3; 8]%Z).
    - unfold emit. cbn. rewrite !puts_app. cbn. repeat rewrite <- app_assoc. cbn [app].
      exists [MLog "Starting installation..."; MLog "";
              MProgress "Checking Python version..."; MLog "Checking Python version..."].
      eexists. split; [reflexivity|]. split; [repeat constructor | intros []].
    - unfold bind at 1 2 3 4. unfold emit at 1 2 3 4. cbn.
      unfold bind at 1.
      match goal with
      | |- context [Install.CrossPlatformInstaller h ?w0] =>
          destruct (constructor_spec h w0) as (c & -> & _)
      end.
      cbn [fs stdin trace]. unfold bind at 1.
      match goal with
      | |- context [Install.create_venv h ?s false ?w0] =>
          pose proof (create_venv_puts_nothing h s false w0) as P1;
          destruct (create_venv_effects h s false w0) as (_ & _ & X1);
          destruct (Install.create_venv h s false w0) as [[[|] | e] w1]
      end; cbn [fst snd trace negb] in P1, X1 |- *.
      + unfold bind at 1 2 3 4. unfold emit at 1 2 3 4. cbn. unfold bind at 1.
        match goal with
        | |- context [Install.install_dependencies h ?s ?w0] =>
            pose proof (install_dependencies_puts_nothing h s w0) as P2;
            destruct (install_dependencies_effects h s w0) as (_ & _ & _ & _ & _ & X2);
            destruct (Install.install_dependencies h s w0) as [[[|] | e] w2]
        end; cbn [fst snd trace negb] in P2, X2 |- *.
        * unfold bind, emit. cbn. rewrite !puts_app, P2, !puts_app, P1, !puts_app. cbn.
          repeat rewrite <- app_assoc. cbn [app].
          exists (removelast success_messages). eexists.
          split; [reflexivity|]. split; [cbn; repeat constructor | intros []].
        * unfold emit. cbn. rewrite !puts_app, P2, !puts_app, P1, !puts_app. cbn.
          repeat rewrite <- app_assoc. cbn [app].
          exists (firstn 12 success_messages). eexists.
          split; [reflexivity|]. split; [cbn; repeat constructor | intros []].
        * rewrite (X2 e eq_refl). unfold emit. cbn.
          rewrite !puts_app, P2, !puts_app, P1, !puts_app. cbn.
          repeat rewrite <- app_assoc. cbn [app].
          exists (firstn 12 success_messages). eexists.
          split; [reflexivity|]. split; [cbn; repeat constructor | intros []].
      + unfold emit. cbn. rewrite !puts_app, P1, !puts_app. cbn.
        repeat rewrite <- app_assoc. cbn [app].
        exists (firstn 8 success_messages). eexists.
        split; [reflexivity|]. split; [cbn; repeat constructor | intros []].
      + rewrite (X1 e eq_refl). unfold emit. cbn.
        rewrite !puts_app, P1, !puts_app. cbn.
        repeat rewrite <- app_assoc. cbn [app].
        exists (firstn 8 success_messages). eexists.
        split; [reflexivity|]. split; [cbn; repeat constructor | intros []]. }
  destruct G as (pre & x & E & Hp & Hx). exists pre, x.
  split; [|split; assumption].
  apply (app_inv_head (puts (trace w))). rewrite <- worker_puts. exact E.
Qed.

(** X19. Every run of the GUI worker, failed or not, puts on the queue
    some log and progress messages followed by exactly one final message
    (success or error), which is last; and under every interleaving of
    worker and UI the action button is enabled again only when the UI has
    rendered all of them. *)
Theorem every_gui_run_ends_once h w g turns :
  InstallGui.installing g = false ->
  (exists pre x, worker_messages h w = (pre ++ [x])%list
                 /\ Forall intermediate pre /\ ~ intermediate x)
  /\ (let s := InstallGui.schedule h turns
                 (InstallGui.started g (worker_messages h w)) in
      InstallGui.button_enabled (InstallGui.gui s) = true ->
      InstallGui.handled s = worker_messages h w).
Proof.
  intros Hg. split; [apply worker_shape|].
  cbn zeta. destruct (worker_shape h w) as (pre & x & -> & Hpre & Hx).
  apply (schedule_in_order h pre x turns Hpre Hx
           (InstallGui.started g (pre ++ [x])) (started_in_order g _ Hg)).
Qed.

Lemma every_gui_run_ends_once_witness :
  InstallGui.handled
    (InstallGui.schedule failing_host (puts_then_gets 9)
       (InstallGui.started (InstallGui.InstallerGUI failing_host)
          (worker_messages failing_host (demo_world [] []))))
  = worker_messages failing_host (demo_world [] []).
Proof.
  exact (proj2 (every_gui_run_ends_once failing_host (demo_world [] [])
                  (InstallGui.InstallerGUI failing_host) (puts_then_gets 9) eq_refl)
           eq_refl).
Defined.

Lemma dispatch_intermediate_installing h m g :
  intermediate m ->
  InstallGui.installing (InstallGui.dispatch h m g) = InstallGui.installing g.
Proof. destruct m; cbn; intros I; try contradiction; reflexivity. Qed.

Lemma step_running h pre x s turn :
  Forall intermediate pre -> ~ intermediate x ->
  running (pre ++ [x]) s -> running (pre ++ [x]) (InstallGui.step h s turn).
Proof.
  intros Hpre Hx Inv. pose proof Inv as [Hall Hrun].
  destruct turn; unfold InstallGui.step.
  - destruct (InstallGui.pending s) as [| m rest] eqn:P; [exact Inv|].
    split; cbn.
    + rewrite <- Hall, <- !app_assoc. reflexivity.
    + exact Hrun.
  - destruct (InstallGui.queue s) as [| m rest] eqn:Q; [exact Inv|].
    assert (Hall' : ((InstallGui.handled s ++ [m]) ++ rest ++ InstallGui.pending s)%list
                    = (pre ++ [x])%list).
    { rewrite <- Hall, <- !app_assoc. reflexivity. }
    split; cbn; [exact Hall'|].
    assert (Dec : intermediate m \/ ~ intermediate m) by (destruct m; cbn; auto).
    destruct Dec as [I | F].
    + right. rewrite (dispatch_intermediate_installing h m _ I).
      destruct Hrun as [Hd | Hi]; [|exact Hi].
      rewrite Hd in Hall. rewrite <- (app_nil_r (pre ++ [x])) in Hall at 2.
      apply app_inv_head in Hall. discriminate.
    + left. rewrite <- app_assoc in Hall'. cbn in Hall'.
      destruct (final_message_is_last _ _ _ _ _ Hpre F Hall') as (-> & -> & _).
      reflexivity.
Qed.

Lemma schedule_running h pre x turns :
  Forall intermediate pre -> ~ intermediate x ->
  forall s, running (pre ++ [x]) s ->
            running (pre ++ [x]) (InstallGui.schedule h turns s).
Proof.
  intros Hpre Hx. unfold InstallGui.schedule.
  induction turns as [| turn turns IH]; intros s I; cbn [fold_left]; [exact I|].
  apply IH. apply step_running; assumption.
Qed.

(** X20. No second installation can start while one is under way: under
    every interleaving, as long as the UI has not rendered all of the
    worker's messages, pressing the action button again changes nothing
    and starts no worker. *)
Theorem no_reentrant_start h w g turns :
  InstallGui.installing g = false ->
  let s := InstallGui.schedule h turns (InstallGui.started g (worker_messages h w)) in
  InstallGui.handled s <> worker_messages h w ->
  InstallGui._start_installation (InstallGui.gui s) = (InstallGui.gui s, false).
Proof.
  intros Hg. cbn zeta. destruct (worker_shape h w) as (pre & x & -> & Hpre & Hx).
  assert (R0 : running (pre ++ [x]) (InstallGui.started g (pre ++ [x]))).
  { unfold running, InstallGui.started, InstallGui._start_installation.
    rewrite Hg. cbn. split; [reflexivity | right; reflexivity]. }
  destruct (schedule_running h pre x turns Hpre Hx _ R0) as [_ [Hd | Hi]].
  - intros N. contradiction.
  - intros _. unfold InstallGui._start_installation. rewrite Hi. reflexivity.
Qed.

Lemma no_reentrant_start_witness :
  let h := demo_host 3 11 2 in
  let s := InstallGui.schedule h [InstallGui.WorkerPut; InstallGui.UiGet]
             (InstallGui.started (InstallGui.InstallerGUI h)
                (worker_messages h (demo_world [] []))) in
  InstallGui._start_installation (InstallGui.gui s) = (InstallGui.gui s, false).
Proof.
  cbn zeta.
  refine (no_reentrant_start (demo_host 3 11 2) (demo_world [] [])
            (InstallGui.InstallerGUI (demo_host 3 11 2))
            [InstallGui.WorkerPut; InstallGui.UiGet] eq_refl _).
  vm_compute. discriminate.
Defined.

(** X21. On an interpreter older than 3.8 the GUI worker puts four
    messages and then the version error, and does nothing else: no
    installer object is built, nothing is printed, removed or run. *)
Theorem gui_version_gate h w :
  below_minimum h ->
  InstallGui._run_installation h w
  = (Ok tt,
     mkWorld (fs w) (stdin w) (colors w)
       (trace w
        ++ map Put [MLog "Starting installation..."; MLog "";
                    MProgress "Checking Python version...";
                    MLog "Checking Python version...";
                    MError (version_mismatch h)])).
Proof.
  intros B. apply version_check_spec in B.
  unfold InstallGui._run_installation, InstallGui.put, try_except.
  unfold bind at 1 2 3 4. unfold emit at 1 2 3 4. cbn. rewrite B.
  unfold emit. cbn. repeat rewrite <- app_assoc. reflexivity.
Qed.

Lemma gui_version_gate_witness :
  worker_messages (demo_host 3 7 9) (demo_world [] [])
  = [MLog "Starting installation..."; MLog "";
     MProgress "Checking Python version..."; MLog "Checking Python version...";
     MError "Python 3.8+ required (found 3.7.9)"].
Proof.
  assert (B : below_minimum (demo_host 3 7 9)) by (unfold below_minimum; cbn; lia).
  unfold worker_messages.
  rewrite (gui_version_gate (demo_host 3 7 9) (demo_world [] []) B).
  reflexivity.
Defined.

(** X22. In the GUI, an existing environment directory makes the worker
    ask on standard input; with no input to read the run ends with the
    error message carrying the EOFError text, after the eight messages of
    the first two phases, and the directory is left alone. *)
Theorem gui_prompt_without_input h w :
  ~ below_minimum h ->
  path_exists (fs w) (Install.venv_path (Install.attributes h)) = true ->
  stdin w = [] ->
  let r := InstallGui._run_installation h w in
  worker_messages h w
  = (firstn 8 success_messages
     ++ [MError ("Installation failed: " ++ exc_text h EOFError)])%list
  /\ fs (snd r) = fs w
  /\ side_effects (trace (snd r)) = side_effects (trace w)
  /\ prompts (trace (snd r))
     = (prompts (trace w) ++ ["Do you want to recreate it? (y/N): "])%list.
Proof.
  intros N Hex Hin. apply version_check_passes in N.
  assert (E : exists wf,
             InstallGui._run_installation h w = (Ok tt, wf)
             /\ puts (trace wf)
                = (puts (trace w) ++ firstn 8 success_messages
                   ++ [MError ("Installation failed: " ++ exc_text h EOFError)])%list
             /\ fs wf = fs w
             /\ side_effects (trace wf) = side_effects (trace w)
             /\ prompts (trace wf)
                = (prompts (trace w) ++ ["Do you want to recreate it? (y/N): "])%list).
  { unfold InstallGui._run_installation, InstallGui.put, try_except.
    unfold bind at 1 2 3 4. unfold emit at 1 2 3 4. cbn. rewrite N.
    unfold bind at 1 2 3 4. unfold emit at 1 2 3 4. cbn.
    unfold bind at 1.
    match goal with
    | |- context [Install.CrossPlatformInstaller h ?w0] =>
        destruct (constructor_spec h w0) as (c & -> & _)
    end.
    cbn [fs stdin trace]. unfold bind at 1.
    exec_core. cbn. rewrite Hex. cbn. rewrite Hin. cbn.
    eexists. split; [reflexivity|]. settle. repeat rewrite <- app_assoc.
    repeat split. }
  destruct E as (wf & E & P & F & S & Q). cbn zeta.
  unfold worker_messages. rewrite E. cbn [snd]. rewrite P.
  rewrite skipn_app, skipn_all, Nat.sub_diag. cbn [skipn app].
  repeat split; assumption.
Qed.

Lemma gui_prompt_without_input_witness :
  let h := demo_host 3 11 2 in
  fs (snd (InstallGui._run_installation h (demo_world [demo_venv] []))) = [demo_venv].
Proof.
  cbn zeta.
  assert (N : ~ below_minimum (demo_host 3 11 2)) by (unfold below_minimum; cbn; lia).
  exact (proj1 (proj2 (gui_prompt_without_input (demo_host 3 11 2)
                         (demo_world [demo_venv] []) N eq_refl eq_refl))).
Defined.

Lemma schedule_renders h g0 turns :
  forall s, InstallGui.gui s = render h (InstallGui.handled s) g0 ->
            InstallGui.gui (InstallGui.schedule h turns s)
            = render h (InstallGui.handled (InstallGui.schedule h turns s)) g0.
Proof.
  unfold InstallGui.schedule.
  induction turns as [| t turns IH]; intros s J; cbn [fold_left]; [exact J|].
  apply IH. destruct t; unfold InstallGui.step.
  - destruct (InstallGui.pending s); [exact J|]. exact J.
  - destruct (InstallGui.queue s) as [| m rest]; [exact J|].
    cbn [InstallGui.gui InstallGui.handled]. unfold render.
    rewrite fold_left_app. cbn [fold_left]. f_equal. exact J.
Qed.

(** Log lines and progress updates leave flags, button and dialogs alone. *)
Lemma render_intermediate h pre g :
  Forall intermediate pre ->
  let g' := render h pre g in
  InstallGui.installing g' = InstallGui.installing g
  /\ InstallGui.installation_complete g' = InstallGui.installation_complete g
  /\ InstallGui.button_text g' = InstallGui.button_text g
  /\ InstallGui.button_enabled g' = InstallGui.button_enabled g
  /\ InstallGui.dialogs g' = InstallGui.dialogs g.
Proof.
  intros Hpre. revert g. induction Hpre as [| m pre Hm _ IH]; intros g.
  - cbn. auto.
  - cbn zeta. unfold render. cbn [fold_left].
    destruct (IH (InstallGui.dispatch h m g)) as (A & B & C & D & E).
    unfold render in A, B, C, D, E. rewrite A, B, C, D, E.
    destruct m; cbn in Hm |- *; try contradiction; auto.
Qed.

(** What the two final handlers leave in the window. *)
Lemma installation_success_fields h t g :
  let g' := InstallGui._installation_success h t g in
  InstallGui.button_enabled g' = true
  /\ InstallGui.installing g' = false
  /\ InstallGui.button_text g' = "Reinstall"
  /\ InstallGui.installation_complete g' = true
  /\ InstallGui.progress_value g' = 100%Z
  /\ InstallGui.progress_label g' = t
  /\ InstallGui.dialogs g'
     = (InstallGui.dialogs g
        ++ [InstallGui.ShowInfo "Installation Complete"
              ("CODITECT Framework has been installed successfully!"
               ++ PyStr.nl ++ PyStr.nl ++ "See the log for next steps.")])%list.
Proof.
  cbn zeta. unfold InstallGui._installation_success.
  destruct (String.eqb (system h) "Windows"); repeat split; reflexivity.
Qed.

Lemma installation_error_fields t g :
  let g' := InstallGui._installation_error t g in
  InstallGui.button_enabled g' = true
  /\ InstallGui.installing g' = false
  /\ InstallGui.button_text g' = InstallGui.button_text g
  /\ InstallGui.installation_complete g' = InstallGui.installation_complete g
  /\ InstallGui.progress_label g' = "Installation failed"
  /\ InstallGui.dialogs g'
     = (InstallGui.dialogs g
        ++ [InstallGui.ShowError "Installation Failed"
              ("An error occurred during installation:" ++ PyStr.nl
               ++ PyStr.nl ++ t ++ PyStr.nl ++ PyStr.nl
               ++ "Please check the log for details.")])%list.
Proof. cbn zeta. unfold InstallGui._installation_error. repeat split; reflexivity. Qed.

(** X23. What the operator finds at the end does not depend on the
    interleaving: at every moment the window is the result of rendering,
    one after the other, the messages taken so far.  Once the final
    message is rendered the button is enabled and the window is no longer
    marked as installing; after a success the button reads Reinstall, the
    run is marked complete, the bar is at 100 and one information dialog
    was shown; after an error the button text is unchanged, the run is not
    marked complete, the label reads Installation failed and one error
    dialog carries the message. *)
Theorem final_window h g pre x turns :
  InstallGui.installing g = false ->
  Forall intermediate pre ->
  let s := InstallGui.schedule h turns (InstallGui.started g (pre ++ [x])) in
  let gf := InstallGui.gui s in
  gf = render h (InstallGui.handled s) (fst (InstallGui._start_installation g))
  /\ (InstallGui.handled s = (pre ++ [x])%list ->
      match x with
      | MSuccess t =>
          InstallGui.button_enabled gf = true
          /\ InstallGui.installing gf = false
          /\ InstallGui.button_text gf = "Reinstall"
          /\ InstallGui.installation_complete gf = true
          /\ InstallGui.progress_value gf = 100%Z
          /\ InstallGui.progress_label gf = t
          /\ exists text, InstallGui.dialogs gf
                          = (InstallGui.dialogs g
                             ++ [InstallGui.ShowInfo "Installation Complete" text])%list
      | MError t =>
          InstallGui.button_enabled gf = true
          /\ InstallGui.installing gf = false
          /\ InstallGui.button_text gf = InstallGui.button_text g
          /\ InstallGui.installation_complete gf = false
          /\ InstallGui.progress_label gf = "Installation failed"
          /\ InstallGui.dialogs gf
             = (InstallGui.dialogs g
                ++ [InstallGui.ShowError "Installation Failed"
                      ("An error occurred during installation:" ++ PyStr.nl
                       ++ PyStr.nl ++ t ++ PyStr.nl ++ PyStr.nl
                       ++ "Please check the log for details.")])%list
      | _ => True
      end).
Proof.
  intros Hg Hpre. cbn zeta.
  assert (J : InstallGui.gui (InstallGui.schedule h turns (InstallGui.started g (pre ++ [x])))
              = render h (InstallGui.handled
                            (InstallGui.schedule h turns
                               (InstallGui.started g (pre ++ [x]))))
                  (fst (InstallGui._start_installation g))).
  { apply schedule_renders. reflexivity. }
  split; [exact J|]. intros Hd. rewrite J, Hd.
  unfold render. rewrite fold_left_app. cbn [fold_left].
  destruct (render_intermediate h pre (fst (InstallGui._start_installation g)) Hpre)
    as (_ & B & C & _ & E).
  unfold render in B, C, E.
  assert (S1 : InstallGui.installation_complete (fst (InstallGui._start_installation g))
               = false
               /\ InstallGui.button_text (fst (InstallGui._start_installation g))
                  = InstallGui.button_text g
               /\ InstallGui.dialogs (fst (InstallGui._start_installation g))
                  = InstallGui.dialogs g).
  { unfold InstallGui._start_installation. rewrite Hg. repeat split. }
  destruct S1 as (S1 & S2 & S3). rewrite S1 in B. rewrite S2 in C. rewrite S3 in E.
  revert B C E.
  generalize (fold_left (fun g0 m => InstallGui.dispatch h m g0) pre
                (fst (InstallGui._start_installation g))) as g2.
  intros g2 B C E.
  destruct x; try exact Logic.I; unfold InstallGui.dispatch.
  - destruct (installation_success_fields h text g2) as (F1 & F2 & F3 & F4 & F5 & F6 & F7).
    rewrite F1, F2, F3, F4, F5, F6, F7, E. repeat split. eexists. reflexivity.
  - destruct (installation_error_fields text g2) as (F1 & F2 & F3 & F4 & F5 & F6).
    rewrite F1, F2, F3, F4, F5, F6, B, C, E. repeat split.
Qed.

Lemma final_window_witness :
  let h := demo_host 3 11 2 in
  let s := InstallGui.schedule h (puts_then_gets 15)
             (InstallGui.started (InstallGui.InstallerGUI h) success_messages) in
  InstallGui.button_text (InstallGui.gui s) = "Reinstall".
Proof.
  cbn zeta.
  assert (P : Forall intermediate (removelast success_messages))
    by (cbn; repeat constructor).
  exact (proj1 (proj2 (proj2 (proj2
           (final_window (demo_host 3 11 2) (InstallGui.InstallerGUI (demo_host 3 11 2))
              (removelast success_messages) (MSuccess "Installation complete!")
              (puts_then_gets 15) eq_refl P) eq_refl)))).
Defined.
